(** * Investmate: the portfolio logic of [main.py]

    A shallow embedding of the methods of class [invest_mate] that carry
    data-transformation logic: the currency converter, the grouping of
    holdings, the aggregation pass with its daily-change step, the CSV
    export and import, and the task selection of the value-over-time chart.

    Conventions.
    - Python [float] and numpy [float64] are IEEE-754 binary64: they are
      Rocq's primitive [float].  Python's [int] literals that the code mixes
      into float arithmetic ([0], [100]) are the floats of the same value.
    - The object [self] is the record [invest_mate]; a method is a function
      in the monad [M], which threads [self] and may raise.  A raised
      exception keeps the mutations made before it, as in Python.
    - Everything outside the process (clock, HTTP providers, yfinance,
      pandas, string parsing) is a field of the record [world].  Within one
      operation a provider answers as a function of its arguments.
    - Widget updates ([update_portfolio_display] and the like) are not
      modelled; message boxes are recorded in the field [shown]. *)

From Stdlib Require Import ZArith List String Floats Bool Lia Sorted.
Import ListNotations.

(* ================================================================== *)
(** * Python values *)

Inductive exn : Type :=
| ValueError | IndexError | KeyError | TypeError | ZeroDivisionError
| FileNotFoundError | ConnectionError.

(** One cell of a holding row.  Rows typed in the form hold strings only;
    rows read back from a CSV file hold strings and numbers. *)
Inductive cell : Type :=
| CStr (s : string)
| CNum (x : float).

Definition row := list cell.

(** The test by which a [dict] finds a key: the same object, or [a == b].
    The empty cells of an imported table are one [nan] object, which is found
    again although [nan != nan]. *)
Definition cell_eqb (a b : cell) : bool :=
  match a, b with
  | CStr s, CStr t => String.eqb s t
  | CNum x, CNum y =>
      PrimFloat.eqb x y || (PrimFloat.is_nan x && PrimFloat.is_nan y)
  | _, _ => false
  end.

(** [x != 0] on floats. *)
Definition ne0 (x : float) : bool := negb (PrimFloat.eqb x 0%float).

(** The result of running a piece of Python: a value or an exception. *)
Inductive outcome (A : Type) : Type :=
| Return (a : A)
| Raise (e : exn).
Arguments Return {A} a.
Arguments Raise {A} e.

(** [l[i]] *)
Definition getitem {A} (l : list A) (i : nat) : outcome A :=
  match nth_error l i with
  | Some x => Return x
  | None => Raise IndexError
  end.

(** [a / b] on Python floats: a zero divisor raises. *)
Definition truediv (a b : float) : outcome float :=
  if PrimFloat.eqb b 0%float then Raise ZeroDivisionError
  else Return (a / b)%float.

(* ================================================================== *)
(** * Message boxes *)

Inductive text : Type :=
| Lit (s : string)
| ErrorFetchingRate (e : exn)          (* f"Error fetching currency conversion rate: {e}" *)
| ErrorFetchingData (symbol : cell) (e : exn)  (* f"Error fetching data for {symbol}: {e}" *)
| ErrorLoading (e : exn)               (* f"Error loading portfolio: {e}" *)
| SavedTo (path : string)              (* f"Portfolio saved to {file_path}" *)
| LoadedFrom (path : string).          (* f"Portfolio loaded from {file_path}" *)

Inductive dialog : Type :=
| showerror (title : string) (body : text)
| showinfo (title : string) (body : text).

(* ================================================================== *)
(** * The application object *)

(** An entry of [total_portfolio_holdings]:
    [[name, symbol, units, value text, profit/loss percent, category, date]].
    The value is the text [f"{sign}{converted:.2f}"]: the amount is kept
    only as its two decimals. *)
Record position : Type := {
  pos_name : cell;
  pos_symbol : cell;
  pos_units : float;
  pos_value : string;
  pos_profit_loss_percent : float;
  pos_category : cell;
  pos_purchase_date : cell
}.

Record invest_mate : Type := {
  portfolio_holdings : list row;
  total_portfolio_holdings : list position;
  total_profit_loss : float;
  total_portfolio_value : float;
  total_profit_loss_percent : float;
  total_portfolio_change : float;
  daily_change : float;
  daily_change_percent : float;
  currency : string;
  currency_rate : float;
  last_updated_currency_date : Z;           (* microseconds *)
  currency_rate_last_updated : option Z;    (* unset until the first refresh *)
  shown : list dialog;                      (* message boxes, oldest first *)
  disk : string -> option string            (* path -> CSV text *)
}.

(** [__init__] at time [t]. *)
Definition init (t : Z) (files : string -> option string) : invest_mate := {|
  portfolio_holdings := [];
  total_portfolio_holdings := [];
  total_profit_loss := 0;
  total_portfolio_value := 0;
  total_profit_loss_percent := 0;
  total_portfolio_change := 0;
  daily_change := 0;
  daily_change_percent := 0;
  currency := "USD";
  currency_rate := 0;
  last_updated_currency_date := t;
  currency_rate_last_updated := None;
  shown := [];
  disk := files
|}.

(** Attribute assignment [self.f = v], one function per attribute that is
    assigned after [__init__]. *)
Definition set_portfolio_holdings (v : list row) (s : invest_mate)
  : invest_mate :=
  {| portfolio_holdings := v;
     total_portfolio_holdings := total_portfolio_holdings s;
     total_profit_loss := total_profit_loss s;
     total_portfolio_value := total_portfolio_value s;
     total_profit_loss_percent := total_profit_loss_percent s;
     total_portfolio_change := total_portfolio_change s;
     daily_change := daily_change s;
     daily_change_percent := daily_change_percent s; currency := currency s;
     currency_rate := currency_rate s;
     last_updated_currency_date := last_updated_currency_date s;
     currency_rate_last_updated := currency_rate_last_updated s;
     shown := shown s; disk := disk s |}.
Definition set_total_portfolio_holdings (v : list position) (s : invest_mate)
  : invest_mate :=
  {| portfolio_holdings := portfolio_holdings s;
     total_portfolio_holdings := v; total_profit_loss := total_profit_loss s;
     total_portfolio_value := total_portfolio_value s;
     total_profit_loss_percent := total_profit_loss_percent s;
     total_portfolio_change := total_portfolio_change s;
     daily_change := daily_change s;
     daily_change_percent := daily_change_percent s; currency := currency s;
     currency_rate := currency_rate s;
     last_updated_currency_date := last_updated_currency_date s;
     currency_rate_last_updated := currency_rate_last_updated s;
     shown := shown s; disk := disk s |}.
Definition set_total_profit_loss (v : float) (s : invest_mate)
  : invest_mate :=
  {| portfolio_holdings := portfolio_holdings s;
     total_portfolio_holdings := total_portfolio_holdings s;
     total_profit_loss := v;
     total_portfolio_value := total_portfolio_value s;
     total_profit_loss_percent := total_profit_loss_percent s;
     total_portfolio_change := total_portfolio_change s;
     daily_change := daily_change s;
     daily_change_percent := daily_change_percent s; currency := currency s;
     currency_rate := currency_rate s;
     last_updated_currency_date := last_updated_currency_date s;
     currency_rate_last_updated := currency_rate_last_updated s;
     shown := shown s; disk := disk s |}.
Definition set_total_portfolio_value (v : float) (s : invest_mate)
  : invest_mate :=
  {| portfolio_holdings := portfolio_holdings s;
     total_portfolio_holdings := total_portfolio_holdings s;
     total_profit_loss := total_profit_loss s; total_portfolio_value := v;
     total_profit_loss_percent := total_profit_loss_percent s;
     total_portfolio_change := total_portfolio_change s;
     daily_change := daily_change s;
     daily_change_percent := daily_change_percent s; currency := currency s;
     currency_rate := currency_rate s;
     last_updated_currency_date := last_updated_currency_date s;
     currency_rate_last_updated := currency_rate_last_updated s;
     shown := shown s; disk := disk s |}.
Definition set_total_profit_loss_percent (v : float) (s : invest_mate)
  : invest_mate :=
  {| portfolio_holdings := portfolio_holdings s;
     total_portfolio_holdings := total_portfolio_holdings s;
     total_profit_loss := total_profit_loss s;
     total_portfolio_value := total_portfolio_value s;
     total_profit_loss_percent := v;
     total_portfolio_change := total_portfolio_change s;
     daily_change := daily_change s;
     daily_change_percent := daily_change_percent s; currency := currency s;
     currency_rate := currency_rate s;
     last_updated_currency_date := last_updated_currency_date s;
     currency_rate_last_updated := currency_rate_last_updated s;
     shown := shown s; disk := disk s |}.
Definition set_total_portfolio_change (v : float) (s : invest_mate)
  : invest_mate :=
  {| portfolio_holdings := portfolio_holdings s;
     total_portfolio_holdings := total_portfolio_holdings s;
     total_profit_loss := total_profit_loss s;
     total_portfolio_value := total_portfolio_value s;
     total_profit_loss_percent := total_profit_loss_percent s;
     total_portfolio_change := v; daily_change := daily_change s;
     daily_change_percent := daily_change_percent s; currency := currency s;
     currency_rate := currency_rate s;
     last_updated_currency_date := last_updated_currency_date s;
     currency_rate_last_updated := currency_rate_last_updated s;
     shown := shown s; disk := disk s |}.
Definition set_daily_change (v : float) (s : invest_mate)
  : invest_mate :=
  {| portfolio_holdings := portfolio_holdings s;
     total_portfolio_holdings := total_portfolio_holdings s;
     total_profit_loss := total_profit_loss s;
     total_portfolio_value := total_portfolio_value s;
     total_profit_loss_percent := total_profit_loss_percent s;
     total_portfolio_change := total_portfolio_change s; daily_change := v;
     daily_change_percent := daily_change_percent s; currency := currency s;
     currency_rate := currency_rate s;
     last_updated_currency_date := last_updated_currency_date s;
     currency_rate_last_updated := currency_rate_last_updated s;
     shown := shown s; disk := disk s |}.
Definition set_daily_change_percent (v : float) (s : invest_mate)
  : invest_mate :=
  {| portfolio_holdings := portfolio_holdings s;
     total_portfolio_holdings := total_portfolio_holdings s;
     total_profit_loss := total_profit_loss s;
     total_portfolio_value := total_portfolio_value s;
     total_profit_loss_percent := total_profit_loss_percent s;
     total_portfolio_change := total_portfolio_change s;
     daily_change := daily_change s; daily_change_percent := v;
     currency := currency s; currency_rate := currency_rate s;
     last_updated_currency_date := last_updated_currency_date s;
     currency_rate_last_updated := currency_rate_last_updated s;
     shown := shown s; disk := disk s |}.
Definition set_currency (v : string) (s : invest_mate)
  : invest_mate :=
  {| portfolio_holdings := portfolio_holdings s;
     total_portfolio_holdings := total_portfolio_holdings s;
     total_profit_loss := total_profit_loss s;
     total_portfolio_value := total_portfolio_value s;
     total_profit_loss_percent := total_profit_loss_percent s;
     total_portfolio_change := total_portfolio_change s;
     daily_change := daily_change s;
     daily_change_percent := daily_change_percent s; currency := v;
     currency_rate := currency_rate s;
     last_updated_currency_date := last_updated_currency_date s;
     currency_rate_last_updated := currency_rate_last_updated s;
     shown := shown s; disk := disk s |}.
Definition set_currency_rate (v : float) (s : invest_mate)
  : invest_mate :=
  {| portfolio_holdings := portfolio_holdings s;
     total_portfolio_holdings := total_portfolio_holdings s;
     total_profit_loss := total_profit_loss s;
     total_portfolio_value := total_portfolio_value s;
     total_profit_loss_percent := total_profit_loss_percent s;
     total_portfolio_change := total_portfolio_change s;
     daily_change := daily_change s;
     daily_change_percent := daily_change_percent s; currency := currency s;
     currency_rate := v;
     last_updated_currency_date := last_updated_currency_date s;
     currency_rate_last_updated := currency_rate_last_updated s;
     shown := shown s; disk := disk s |}.
Definition set_currency_rate_last_updated (v : option Z) (s : invest_mate)
  : invest_mate :=
  {| portfolio_holdings := portfolio_holdings s;
     total_portfolio_holdings := total_portfolio_holdings s;
     total_profit_loss := total_profit_loss s;
     total_portfolio_value := total_portfolio_value s;
     total_profit_loss_percent := total_profit_loss_percent s;
     total_portfolio_change := total_portfolio_change s;
     daily_change := daily_change s;
     daily_change_percent := daily_change_percent s; currency := currency s;
     currency_rate := currency_rate s;
     last_updated_currency_date := last_updated_currency_date s;
     currency_rate_last_updated := v; shown := shown s; disk := disk s |}.
Definition set_shown (v : list dialog) (s : invest_mate)
  : invest_mate :=
  {| portfolio_holdings := portfolio_holdings s;
     total_portfolio_holdings := total_portfolio_holdings s;
     total_profit_loss := total_profit_loss s;
     total_portfolio_value := total_portfolio_value s;
     total_profit_loss_percent := total_profit_loss_percent s;
     total_portfolio_change := total_portfolio_change s;
     daily_change := daily_change s;
     daily_change_percent := daily_change_percent s; currency := currency s;
     currency_rate := currency_rate s;
     last_updated_currency_date := last_updated_currency_date s;
     currency_rate_last_updated := currency_rate_last_updated s; shown := v;
     disk := disk s |}.
Definition set_disk (v : string -> option string) (s : invest_mate)
  : invest_mate :=
  {| portfolio_holdings := portfolio_holdings s;
     total_portfolio_holdings := total_portfolio_holdings s;
     total_profit_loss := total_profit_loss s;
     total_portfolio_value := total_portfolio_value s;
     total_profit_loss_percent := total_profit_loss_percent s;
     total_portfolio_change := total_portfolio_change s;
     daily_change := daily_change s;
     daily_change_percent := daily_change_percent s; currency := currency s;
     currency_rate := currency_rate s;
     last_updated_currency_date := last_updated_currency_date s;
     currency_rate_last_updated := currency_rate_last_updated s;
     shown := shown s; disk := v |}.

(* ================================================================== *)
(** * The world outside the process *)

(** The JSON answer of the symbol search: [{"count": n, "result": [...]}],
    each result reduced to its ["description"]. *)
Record search_result : Type := {
  count : Z;
  result : list string
}.

(** One row of [yf.Ticker(symbol).history(period="1d")]; the columns are
    numpy [float64]. *)
Record bar : Type := {
  Open : float;
  Close : float
}.

(** A pandas table as the application sees it: [df.columns] and
    [df.values.tolist()]. *)
Record frame : Type := {
  columns : list string;
  values : list row
}.

(** A price series: [(date, value)] points and the series' name. *)
Record series : Type := {
  series_name : string * nat;             (* f"{symbol}_{idx}" *)
  points : list (Z * float)
}.

Record world : Type := {
  (* dt.datetime.now(), in microseconds *)
  now : Z;
  (* requests.get(fxratesapi, currencies=c).json()['rates'][c] *)
  fx_rates : string -> outcome float;
  (* requests.get(finnhub search, q=symbol).json() *)
  finnhub_search : cell -> outcome search_result;
  (* yf.Ticker(symbol).history(period="1d") *)
  ticker_history : cell -> outcome (list bar);
  (* float(s) on a string *)
  float_of_string : string -> option float;
  (* t.strftime("%d/%m/%Y") *)
  strftime_dmy : Z -> string;
  (* str(x).strip() *)
  str_strip : cell -> string;
  (* f"{CurrencySymbols.get_symbol(c)}" *)
  get_symbol : string -> string;
  (* f"{x:.2f}" *)
  format_2f : float -> string;
  (* dt.datetime.strptime(s, fmt) *)
  strptime : string -> string -> option Z;
  (* pd.to_datetime(s, dayfirst=True) *)
  to_datetime : string -> outcome Z;
  (* yf.download(symbol, start, end, interval="1d") reduced to its
     "Adj Close" or "Close" column; [None] when it has neither *)
  yf_download : string -> Z -> Z -> outcome (option (list (Z * float)));
  (* pd.concat(dfs, axis=1, join="outer").fillna(0.0), summed by row and
     rendered as (time, price) records *)
  concat_sum : list series -> list (string * float);
  (* pd.DataFrame(rows, columns=names) *)
  DataFrame : list row -> list string -> outcome frame;
  (* the text df.to_csv(path, index=False) writes *)
  to_csv : frame -> string;
  (* pd.read_csv on the text of a file *)
  read_csv : string -> outcome frame
}.

(* ================================================================== *)
(** * Methods as state transformers *)

Definition M (A : Type) : Type := invest_mate -> outcome A * invest_mate.

Definition ret {A} (a : A) : M A := fun s => (Return a, s).

Definition bind {A B} (c : M A) (k : A -> M B) : M B :=
  fun s => match c s with
           | (Return a, s') => k a s'
           | (Raise e, s') => (Raise e, s')
           end.

Definition raise {A} (e : exn) : M A := fun s => (Raise e, s).

Definition lift {A} (o : outcome A) : M A := fun s => (o, s).

(** Reading an attribute of [self]. *)
Definition gets {A} (f : invest_mate -> A) : M A := fun s => (Return (f s), s).

(** Assigning attributes of [self]. *)
Definition modify (f : invest_mate -> invest_mate) : M unit :=
  fun s => (Return tt, f s).

(** [try: c  except Exception as e: handler e] *)
Definition try_except {A} (c : M A) (handler : exn -> M A) : M A :=
  fun s => match c s with
           | (Return a, s') => (Return a, s')
           | (Raise e, s') => handler e s'
           end.

Declare Scope py_scope.
Delimit Scope py_scope with py.
Notation "x <- c ;; k" := (bind c (fun x => k))
  (at level 61, c at next level, right associativity) : py_scope.
Notation "c ;; k" := (bind c (fun _ => k))
  (at level 61, right associativity) : py_scope.

(** The same sequencing for code that does not touch [self]. *)
Definition obind {A B} (o : outcome A) (k : A -> outcome B) : outcome B :=
  match o with
  | Return a => k a
  | Raise e => Raise e
  end.
Notation "'let!' x := o 'in' k" := (obind o (fun x => k))
  (at level 61, x name, o at next level, right associativity).

(** [for x in l: body x] *)
Fixpoint for_each {A} (l : list A) (body : A -> M unit) : M unit :=
  match l with
  | [] => ret tt
  | x :: rest => bind (body x) (fun _ => for_each rest body)
  end.

(** [messagebox.showerror] and [messagebox.showinfo]. *)
Definition messagebox (d : dialog) : M unit :=
  modify (fun s => set_shown (shown s ++ [d]) s).

(* ================================================================== *)
(** * Dictionaries in insertion order *)

Section Dict.
Variable V : Type.

Fixpoint dict_get (k : cell) (d : list (cell * V)) : option V :=
  match d with
  | [] => None
  | (k', v) :: rest => if cell_eqb k' k then Some v else dict_get k rest
  end.

(** [d[k] = v]: an existing key keeps its place. *)
Fixpoint dict_set (k : cell) (v : V) (d : list (cell * V)) : list (cell * V) :=
  match d with
  | [] => [(k, v)]
  | (k', v') :: rest =>
      if cell_eqb k' k then (k', v) :: rest else (k', v') :: dict_set k v rest
  end.

End Dict.
Arguments dict_get {V} k d.
Arguments dict_set {V} k v d.

(* ================================================================== *)
(** * The methods of [invest_mate] *)

Section Methods.
Variable w : world.
Local Open Scope py_scope.

(** ** Currency *)

(** [timedelta.seconds]: the seconds field of a normalised timedelta, which
    lies in [0, 86400); whole days are in [timedelta.days]. *)
Definition timedelta_seconds (d : Z) : Z := ((d / 1000000) mod 86400)%Z.

(** [update_currency], lines 87-98. *)
Definition update_currency : M unit :=
  try_except
    (cur <- gets currency ;;
     rate <- lift (fx_rates w cur) ;;
     modify (set_currency_rate rate) ;;
     modify (set_currency_rate_last_updated (Some (now w))))
    (fun e =>
       messagebox (showerror "Currency Conversion Error" (ErrorFetchingRate e))).

(** [convert_currency], lines 100-110.  The branch that refreshes the rate
    ends without a [return]: the call yields [None]. *)
Definition convert_currency (amount : float) : M (option float) :=
  cur <- gets currency ;;
  if String.eqb cur "USD" then ret (Some amount)
  else
    last <- gets last_updated_currency_date ;;
    if (600 <? timedelta_seconds (now w - last))%Z then
      update_currency ;;
      ret None
    else
      rate <- gets currency_rate ;;
      ret (Some (amount * rate)%float).

(** [f"{CurrencySymbols.get_symbol(self.currency)}{self.convert_currency(v):.2f}"]:
    formatting [None] with [.2f] raises [TypeError]. *)
Definition format_converted (v : float) : M string :=
  cur <- gets currency ;;
  converted <- convert_currency v ;;
  match converted with
  | Some x => ret (get_symbol w cur ++ format_2f w x)%string
  | None => raise TypeError
  end.

(** ** Prices *)

(** [data.history(period="1d")[column].iloc[-1]] *)
Definition last_of (column : bar -> float) (symbol : cell) : outcome float :=
  let! bars := ticker_history w symbol in
  match rev bars with
  | b :: _ => Return (column b)
  | [] => Raise IndexError
  end.

(** [get_current_price], lines 852-861. *)
Definition get_current_price (symbol : cell) : M float :=
  try_except
    (lift (last_of Close symbol))
    (fun e =>
       messagebox (showerror "Portfolio Update" (ErrorFetchingData symbol e)) ;;
       ret 0%float).

(** ** Grouping *)

(** [float(x)] *)
Definition py_float (c : cell) : outcome float :=
  match c with
  | CNum x => Return x
  | CStr s => match float_of_string w s with
              | Some x => Return x
              | None => Raise ValueError
              end
  end.

(** The loop of [group_portfolio_holdings], lines 868-873. *)
Fixpoint group_loop (holdings : list row) (grouped : list (cell * list row))
  : outcome (list (cell * list row)) :=
  match holdings with
  | [] => Return grouped
  | holding :: rest =>
      let! symbol := getitem holding 0 in
      match dict_get symbol grouped with
      | None => group_loop rest (grouped ++ [(symbol, [tl holding])])
      | Some lots => group_loop rest (dict_set symbol (lots ++ [tl holding]) grouped)
      end
  end.

(** [group_portfolio_holdings], lines 863-874. *)
Definition group_portfolio_holdings : M (list (cell * list row)) :=
  holdings <- gets portfolio_holdings ;;
  lift (group_loop holdings []).

(** ** Aggregation *)

(** The locals of the per-symbol part of [update_portfolio], lines 916-921,
    with [purchase_date] and the flag [i]. *)
Record locals : Type := {
  total_units : float;
  total_symbol_value : float;
  total_symbol_profit_loss : float;
  total_current_value : float;
  total_investment_value : float;
  purchase_date : cell;
  i : Z
}.

(** Lines 911 and 916-923: the locals before the loop over the lots;
    [purchase_date] starts as today's date. *)
Definition initial_locals : locals := {|
  total_units := 0;
  total_symbol_value := 0;
  total_symbol_profit_loss := 0;
  total_current_value := 0;
  total_investment_value := 0;
  purchase_date := CStr (strftime_dmy w (now w));
  i := 0
|}.

(** One iteration of the loop over the lots of a symbol, lines 925-941. *)
Definition lot_step (current_price : float) (acc : locals) (holding : row)
  : outcome locals :=
  let! c0 := getitem holding 0 in
  let! purchase_price := py_float c0 in
  let! c1 := getitem holding 1 in
  let! fees := py_float c1 in
  let! c2 := getitem holding 2 in
  let! units := py_float c2 in
  let total_investment := (purchase_price * units - fees)%float in
  let current_value := (current_price * units)%float in
  let profit_loss := (current_value - total_investment)%float in
  let acc' := {|
    total_units := (total_units acc + units)%float;
    total_symbol_value := (total_symbol_value acc + current_value)%float;
    total_symbol_profit_loss := (total_symbol_profit_loss acc + profit_loss)%float;
    total_current_value := (total_current_value acc + current_value)%float;
    total_investment_value := (total_investment_value acc + total_investment)%float;
    purchase_date := purchase_date acc;
    i := i acc |} in
  if (i acc =? 0)%Z then
    let! c3 := getitem holding 3 in
    Return {|
      total_units := total_units acc';
      total_symbol_value := total_symbol_value acc';
      total_symbol_profit_loss := total_symbol_profit_loss acc';
      total_current_value := total_current_value acc';
      total_investment_value := total_investment_value acc';
      purchase_date := c3;
      i := (i acc + 1)%Z |}
  else Return acc'.

(** [for holding in grouped_holdings[symbol]: ...], lines 924-941. *)
Fixpoint lots_loop (current_price : float) (acc : locals) (lots : list row)
  : outcome locals :=
  match lots with
  | [] => Return acc
  | holding :: rest =>
      let! acc' := lot_step current_price acc holding in
      lots_loop current_price acc' rest
  end.

(** [(n / d * 100) if d != 0 else 0], lines 945 and 952. *)
Definition percent_or_zero (n d : float) : outcome float :=
  if ne0 d then
    let! q := truediv n d in
    Return (q * 100)%float
  else Return 0%float.

(** The body of [try:] for one symbol, lines 902-955; it returns the new
    [edited_grouped_holdings]. *)
Definition symbol_body (symbol : cell) (lots : list row)
    (edited : list (cell * position)) : M (list (cell * position)) :=
  found <- lift (finnhub_search w symbol) ;;
  first_holding <- lift (getitem lots 0) ;;
  category <- (if (4 <? List.length first_holding)%nat
               then lift (getitem first_holding 4)
               else ret (CStr "General")) ;;
  name <- (if (0 <? count found)%Z
           then (d <- lift (getitem (result found) 0) ;; ret (CStr d))
           else ret symbol) ;;
  current_price <- get_current_price symbol ;;
  acc <- lift (lots_loop current_price initial_locals lots) ;;
  modify (fun s => set_total_profit_loss
            (total_profit_loss s + total_symbol_profit_loss acc)%float s) ;;
  modify (fun s => set_total_portfolio_value
            (total_portfolio_value s + total_symbol_value acc)%float s) ;;
  tpl <- gets total_profit_loss ;;
  tpv <- gets total_portfolio_value ;;
  change <- lift (percent_or_zero tpl (tpv - tpl)%float) ;;
  modify (set_total_portfolio_change change) ;;
  value_text <- format_converted (total_symbol_value acc) ;;
  percent <- lift (percent_or_zero (total_symbol_profit_loss acc)
                     (total_investment_value acc)) ;;
  ret (dict_set symbol
         {| pos_name := name; pos_symbol := symbol;
            pos_units := total_units acc; pos_value := value_text;
            pos_profit_loss_percent := percent;
            pos_category := category;
            pos_purchase_date := purchase_date acc |}
         edited).

(** [for symbol in grouped_holdings: try: ... except Exception as e: ...],
    lines 900-958. *)
Fixpoint symbols_loop (grouped : list (cell * list row))
    (edited : list (cell * position)) : M (list (cell * position)) :=
  match grouped with
  | [] => ret edited
  | (symbol, lots) :: rest =>
      edited' <- try_except
                   (symbol_body symbol lots edited)
                   (fun e =>
                      messagebox (showerror "Portfolio Update"
                                    (ErrorFetchingData symbol e)) ;;
                      ret edited) ;;
      symbols_loop rest edited'
  end.

(** The body of the loop of [calculate_daily_change], lines 1025-1028.
    Each use of [data.history(period="1d")] is a fetch of its own; the
    operands are numpy scalars, whose division follows IEEE-754 (a zero
    divisor gives an infinity or NaN and a warning, not an exception). *)
Definition daily_change_step (holding : position) : M unit :=
  let symbol := pos_symbol holding in
  dc <- gets daily_change ;;
  close1 <- lift (last_of Close symbol) ;;
  open1 <- lift (last_of Open symbol) ;;
  modify (set_daily_change (dc + (close1 - open1))%float) ;;
  dcp <- gets daily_change_percent ;;
  close2 <- lift (last_of Close symbol) ;;
  open2 <- lift (last_of Open symbol) ;;
  open3 <- lift (last_of Open symbol) ;;
  modify (set_daily_change_percent
            (dcp + ((close2 - open2) / open3) * 100)%float).

(** [calculate_daily_change], lines 1020-1028. *)
Definition calculate_daily_change : M unit :=
  positions <- gets total_portfolio_holdings ;;
  for_each positions daily_change_step.

(** [update_portfolio], lines 876-975; the closing
    [update_portfolio_display] only redraws widgets. *)
Definition update_portfolio (text_values : list string) : M unit :=
  (if (0 <? List.length text_values)%nat then
     let new_holding :=
       if (List.length text_values =? 5)%nat
       then map CStr text_values ++ [CStr "General"]
       else map CStr text_values in
     modify (fun s => set_portfolio_holdings
               (portfolio_holdings s ++ [new_holding]) s)
   else ret tt) ;;
  modify (set_total_portfolio_holdings []) ;;
  grouped_holdings <- group_portfolio_holdings ;;
  modify (set_total_profit_loss 0) ;;
  modify (set_total_portfolio_value 0) ;;
  modify (set_daily_change 0) ;;
  modify (set_daily_change_percent 0) ;;
  edited_grouped_holdings <- symbols_loop grouped_holdings [] ;;
  tpl <- gets total_profit_loss ;;
  tpv <- gets total_portfolio_value ;;
  (if ne0 (tpv - tpl)%float then
     q <- lift (truediv tpl (tpv - tpl)%float) ;;
     modify (set_total_profit_loss_percent (q * 100)%float)
   else ret tt) ;;
  for_each edited_grouped_holdings (fun edited_holding =>
    modify (fun s => set_total_portfolio_holdings
              (total_portfolio_holdings s ++ [snd edited_holding]) s)) ;;
  calculate_daily_change.

(** [on_currency_selected], lines 1235-1241; [choice] is the selector's
    current text. *)
Definition on_currency_selected (choice : string) : M unit :=
  modify (set_currency choice) ;;
  update_currency ;;
  update_portfolio [].

(** ** CSV export and import *)

(** The column names of [save_portfolio] and the [required_columns] of
    [load_portfolio]: the same six. *)
Definition required_columns : list string :=
  ["Symbol"; "Purchase Price"; "Fees"; "Units"; "Date Purchased";
   "Category"]%string.

(** Writing a file. *)
Definition write_file (path content : string) (files : string -> option string)
  : string -> option string :=
  fun p => if String.eqb p path then Some content else files p.

(** [save_portfolio], lines 658-671; [file_path] is the answer of the save
    dialog, [""] when it is dismissed. *)
Definition save_portfolio (file_path : string) : M unit :=
  holdings <- gets portfolio_holdings ;;
  match holdings with
  | [] => messagebox (showinfo "Save Portfolio" (Lit "No holdings to save."))
  | _ :: _ =>
      if String.eqb file_path "" then ret tt
      else
        df <- lift (DataFrame w holdings required_columns) ;;
        modify (fun s => set_disk (write_file file_path (to_csv w df) (disk s)) s) ;;
        messagebox (showinfo "Save Portfolio" (SavedTo file_path))
  end.

(** [col in df.columns] *)
Definition has_column (df : frame) (col : string) : bool :=
  existsb (String.eqb col) (columns df).

(** [pd.read_csv(file_path)] *)
Definition read_file (file_path : string) : M frame :=
  files <- gets disk ;;
  match files file_path with
  | Some content => lift (read_csv w content)
  | None => raise FileNotFoundError
  end.

(** [load_portfolio], lines 673-690; [file_path] is the answer of the open
    dialog. *)
Definition load_portfolio (file_path : string) : M unit :=
  if String.eqb file_path "" then ret tt
  else
    try_except
      (df <- read_file file_path ;;
       if negb (forallb (has_column df) required_columns) then
         messagebox (showerror "Load Portfolio" (Lit "Invalid file format."))
       else
         modify (set_portfolio_holdings (values df)) ;;
         update_portfolio [] ;;
         messagebox (showinfo "Load Portfolio" (LoadedFrom file_path)))
      (fun e => messagebox (showerror "Load Portfolio" (ErrorLoading e))).

(** ** The value-over-time chart *)

Definition days (n : Z) : Z := (n * 86400 * 1000000)%Z.

(** [dt.datetime(2000, 1, 1)], in microseconds since 1970-01-01. *)
Definition datetime_2000_01_01 : Z := days 10957.

(** [delta_map], lines 701-710; ["max"] maps to [None]. *)
Definition delta_map (timeframe : string) : option (option Z) :=
  if String.eqb timeframe "1wk" then Some (Some (days 7))
  else if String.eqb timeframe "1mo" then Some (Some (days 30))
  else if String.eqb timeframe "3mo" then Some (Some (days 90))
  else if String.eqb timeframe "6mo" then Some (Some (days 180))
  else if String.eqb timeframe "1y" then Some (Some (days 365))
  else if String.eqb timeframe "2y" then Some (Some (days 730))
  else if String.eqb timeframe "5y" then Some (Some (days 1825))
  else if String.eqb timeframe "max" then Some None
  else None.

(** Lines 711-713. *)
Definition start_date (timeframe : string) : Z :=
  let timeframe := match delta_map timeframe with
                   | Some _ => timeframe
                   | None => "1mo"%string
                   end in
  match delta_map timeframe with
  | Some (Some delta) => (now w - delta)%Z
  | _ => datetime_2000_01_01
  end.

(** The loop over the three date formats, lines 721-726. *)
Fixpoint first_format (date_str : string) (formats : list string) : option Z :=
  match formats with
  | [] => None
  | fmt :: rest =>
      match strptime w date_str fmt with
      | Some d => Some d
      | None => first_format date_str rest
      end
  end.

(** Lines 720-728: the purchase date of a holding. *)
Definition parse_purchase_date (date_str : string) : outcome Z :=
  match first_format date_str ["%d-%m-%Y"; "%d/%m/%Y"; "%Y-%m-%d"]%string with
  | Some d => Return d
  | None => to_datetime w date_str
  end.

Definition task : Type := (nat * string * float * Z)%type.

(** The body of [try:] for one holding, lines 717-731: [Return None] is the
    [continue] of a holding bought after [end_date]. *)
Definition task_of (end_date : Z) (idx : nat) (h : row) : outcome (option task) :=
  let! c0 := getitem h 0 in
  let symbol := str_strip w c0 in
  let! c3 := getitem h 3 in
  let! units := py_float c3 in
  let! c4 := getitem h 4 in
  let date_str := str_strip w c4 in
  let! purchase_date := parse_purchase_date date_str in
  if (end_date <? purchase_date)%Z then Return None
  else Return (Some (idx, symbol, units, purchase_date)).

(** [for idx, h in enumerate(holdings): ...], lines 715-733; a holding that
    raises is printed and skipped. *)
Fixpoint tasks_loop (end_date : Z) (idx : nat) (holdings : list row)
    (tasks : list task) : list task :=
  match holdings with
  | [] => tasks
  | h :: rest =>
      match task_of end_date idx h with
      | Return (Some t) => tasks_loop end_date (S idx) rest (tasks ++ [t])
      | Return None | Raise _ => tasks_loop end_date (S idx) rest tasks
      end
  end.

(** The local function [fetch], lines 737-766. *)
Definition fetch (end_date : Z) (idx : nat) (symbol : string) (units : float)
    (start_dt : Z) : option series :=
  match yf_download w symbol start_dt (end_date + days 1)%Z with
  | Return (Some []) => None
  | Return (Some closes) =>
      Some {| series_name := (symbol, idx);
              points := map (fun p => (fst p, (snd p * units)%float)) closes |}
  | Return None => None
  | Raise _ => None
  end.

(** Lines 768-779, with the futures taken in the order of their tasks. *)
Fixpoint fetch_all (end_date start : Z) (tasks : list task) : list series :=
  match tasks with
  | [] => []
  | (idx, sym, units, dt) :: rest =>
      match fetch end_date idx sym units (Z.max start dt) with
      | Some df => match points df with
                   | [] => fetch_all end_date start rest
                   | _ :: _ => df :: fetch_all end_date start rest
                   end
      | None => fetch_all end_date start rest
      end
  end.

(** Lines 734-797: the chart computed from the tasks. *)
Definition series_of_tasks (timeframe : string) (tasks : list task)
  : list (string * float) :=
  match tasks with
  | [] => []
  | _ :: _ =>
      match fetch_all (now w) (start_date timeframe) tasks with
      | [] => []
      | dfs => concat_sum w dfs
      end
  end.

(** [get_portfolio_data_for_graph], lines 692-797; the empty table is the
    empty list of records. *)
Definition get_portfolio_data_for_graph (timeframe : string) (s : invest_mate)
  : list (string * float) :=
  match portfolio_holdings s with
  | [] => []
  | holdings => series_of_tasks timeframe (tasks_loop (now w) 0 holdings [])
  end.

End Methods.

(* ================================================================== *)
(** * The add-holding form *)

Section Form.
Variable w : world.
(** [value.isalnum()] *)
Variable isalnum : string -> bool.

Inductive field_type : Type := text_field | number_field | date_field.

(** [self.input_list], line 79: the name and the type of each input. *)
Definition input_list : list (string * field_type) :=
  [("Symbol"%string, text_field);
   ("Purchase Price"%string, number_field);
   ("Fees"%string, number_field);
   ("Units"%string, number_field);
   ("Date Purchased (DD-MM-YYYY)"%string, date_field)].

Definition newline : string := String (Ascii.ascii_of_nat 10) EmptyString.

Definition not_properly_formatted (name : string) : string :=
  ("Field " ++ name ++ " is not properly formatted." ++ newline)%string.

(** One iteration of the loop of [check_properly_formatted], lines 814-835:
    the text it adds to [error_string]. *)
Definition check_field (i : nat) (value : string) : outcome string :=
  if String.eqb value "" then
    let! field := getitem input_list i in
    Return ("Field " ++ fst field ++ " is empty." ++ newline)%string
  else
    let! field := getitem input_list i in
    match snd field with
    | number_field =>
        match float_of_string w value with
        | Some _ => Return ""%string
        | None => Return (not_properly_formatted (fst field))
        end
    | date_field =>
        match strptime w value "%d-%m-%Y" with
        | Some _ => Return ""%string
        | None =>
            match strptime w value "%d/%m/%Y" with
            | Some _ => Return ""%string
            | None =>
                match strptime w value "%Y-%m-%d" with
                | Some _ => Return ""%string
                | None => Return (not_properly_formatted (fst field))
                end
            end
        end
    | text_field =>
        if negb (isalnum value)
        then Return (not_properly_formatted (fst field))
        else Return ""%string
    end.

(** [for i, value in enumerate(inputted_values): ...], lines 813-835. *)
Fixpoint check_loop (i : nat) (inputted_values : list string)
    (error_string : string) : outcome string :=
  match inputted_values with
  | [] => Return error_string
  | value :: rest =>
      let! piece := check_field i value in
      check_loop (S i) rest (error_string ++ piece)%string
  end.

(** [check_properly_formatted], lines 808-840. *)
Definition check_properly_formatted (inputted_values : list string) : M bool :=
  bind (lift (check_loop 0 inputted_values "")) (fun error_string =>
  if negb (String.eqb error_string "") then
    bind (messagebox
            (showerror "Input Error"
               (Lit ("Please correct the following errors:" ++ newline
                     ++ error_string)%string)))
         (fun _ => ret false)
  else ret true).

(** [add_investment], lines 842-850; [text_values] is what
    [get_form_values] reads from the inputs. *)
Definition add_investment (text_values : list string) : M unit :=
  bind (check_properly_formatted text_values) (fun ok =>
  if ok then update_portfolio w text_values else ret tt).

End Form.

(* ================================================================== *)
(** * The valuation formulas in the specification's words *)

Record lot : Type := {
  purchase_price : float;
  fees : float;
  units : float
}.

(** cost_basis = purchase_price*units - fees *)
Definition spec_cost_basis (l : lot) : float :=
  (purchase_price l * units l - fees l)%float.

(** current_value = current_price*units *)
Definition spec_current_value (current_price : float) (l : lot) : float :=
  (current_price * units l)%float.

(** lot_profit_loss = current_value - cost_basis *)
Definition spec_lot_profit_loss (current_price : float) (l : lot) : float :=
  (spec_current_value current_price l - spec_cost_basis l)%float.

(** A per-symbol total: the sum over the lots, in their order, from 0. *)
Definition total (xs : list float) : float := fold_left PrimFloat.add xs 0%float.

(** The lot that a grouped row [[price, fees, units, ...]] stands for. *)
Definition lot_of_row (w : world) (r : row) : outcome lot :=
  let! c0 := getitem r 0 in
  let! p := py_float w c0 in
  let! c1 := getitem r 1 in
  let! f := py_float w c1 in
  let! c2 := getitem r 2 in
  let! u := py_float w c2 in
  Return {| purchase_price := p; fees := f; units := u |}.

(** The most recent daily bar of a symbol, when the feed has one. *)
Definition last_bar (w : world) (symbol : cell) : option bar :=
  match ticker_history w symbol with
  | Return bars => match rev bars with b :: _ => Some b | [] => None end
  | Raise _ => None
  end.

(** The daily move of a bar and its move in percent of the open, with the
    division of IEEE-754 and no test of the divisor. *)
Definition bar_change (b : bar) : float := (Close b - Open b)%float.
Definition bar_change_percent (b : bar) : float :=
  ((Close b - Open b) / Open b * 100)%float.

(** A piece of code that leaves [self.portfolio_holdings] as it found it,
    whether it returns or raises. *)
Definition keeps_holdings {A} (c : M A) : Prop :=
  forall s, portfolio_holdings (snd (c s)) = portfolio_holdings s.




(** A predicate on [self] that a piece of code carries from its start to its
    end, whether it returns or raises. *)
Definition maintains {A} (P : invest_mate -> Prop) (c : M A) : Prop :=
  forall s, P s -> P (snd (c s)).

(** The lots of [symbol] among the holdings: the rows that start with it,
    without their first cell, in the order of the holdings. *)
Definition lots_of (symbol : cell) (holdings : list row) : list row :=
  map (@tl cell)
    (filter (fun h => match h with
                      | c :: _ => cell_eqb c symbol
                      | [] => false
                      end) holdings).

(** An input of the form that is filled in and reads as its type. *)
Definition field_ok (w : world) (isalnum : string -> bool)
    (ty : field_type) (value : string) : bool :=
  negb (String.eqb value "") &&
  match ty with
  | text_field => isalnum value
  | number_field =>
      match float_of_string w value with Some _ => true | None => false end
  | date_field =>
      match first_format w value ["%d-%m-%Y"; "%d/%m/%Y"; "%Y-%m-%d"]%string with
      | Some _ => true
      | None => false
      end
  end.

(** The five inputs of the form, each checked as its type. *)
Definition form_ok (w : world) (isalnum : string -> bool)
    (text_values : list string) : bool :=
  match text_values with
  | [symbol; price; fee; unit_count; date] =>
      field_ok w isalnum text_field symbol &&
      field_ok w isalnum number_field price &&
      field_ok w isalnum number_field fee &&
      field_ok w isalnum number_field unit_count &&
      field_ok w isalnum date_field date
  | _ => false
  end.

(** Holdings whose symbol cell is a string, as the form and a CSV file with
    ticker symbols give them. *)
Definition string_symbols (holdings : list row) : Prop :=
  Forall (fun h => exists symbol rest, h = CStr symbol :: rest) holdings.

(** A dictionary whose keys are strings. *)
Definition string_keys {V} (d : list (cell * V)) : Prop :=
  Forall (fun kv => exists symbol, fst kv = CStr symbol) d.

(** What [grouped] holds for a symbol after more holdings were taken in. *)
Definition merged (before : option (list row)) (lots : list row)
  : option (list row) :=
  match lots with
  | [] => before
  | _ :: _ => Some (match before with Some l => l | None => [] end ++ lots)
  end.

(** The row that [update_portfolio] makes of the values of the form,
    lines 883-886. *)
Definition new_holding (text_values : list string) : row :=
  if (List.length text_values =? 5)%nat
  then map CStr text_values ++ [CStr "General"]
  else map CStr text_values.

(** The index of the holding that a task was made for. *)
Definition task_index (t : task) : nat := fst (fst (fst t)).

(** The series that [fetch] makes of the closing prices of a download. *)
Definition scaled (symbol : string) (idx : nat) (units : float)
    (closes : list (Z * float)) : series :=
  {| series_name := (symbol, idx);
     points := map (fun p => (fst p, (snd p * units)%float)) closes |}.

(** A position whose symbol is the first cell of one of the holdings. *)
Definition held (holdings : list row) (p : position) : Prop :=
  exists h, In h holdings /\ getitem h 0 = Return (pos_symbol p).

(** A pass without new values in two halves: lines 889-958, up to the end
    of the loop over the symbols, and lines 960-975. *)
Definition aggregate_symbols (w : world) : M (list (cell * position)) :=
  bind (modify (set_total_portfolio_holdings [])) (fun _ =>
  bind group_portfolio_holdings (fun grouped_holdings =>
  bind (modify (set_total_profit_loss 0)) (fun _ =>
  bind (modify (set_total_portfolio_value 0)) (fun _ =>
  bind (modify (set_daily_change 0)) (fun _ =>
  bind (modify (set_daily_change_percent 0)) (fun _ =>
  symbols_loop w grouped_holdings [])))))).

Definition finish_pass (w : world) (edited : list (cell * position)) : M unit :=
  bind (gets total_profit_loss) (fun tpl =>
  bind (gets total_portfolio_value) (fun tpv =>
  bind (if ne0 (tpv - tpl)%float then
          bind (lift (truediv tpl (tpv - tpl)%float)) (fun q =>
          modify (set_total_profit_loss_percent (q * 100)%float))
        else ret tt) (fun _ =>
  bind (for_each edited (fun edited_holding =>
          modify (fun s => set_total_portfolio_holdings
                    (total_portfolio_holdings s ++ [snd edited_holding]) s)))
       (fun _ => calculate_daily_change w)))).

(** The value text of an amount in the display currency [c]. *)
Definition value_text (w : world) (c : string) (amount : float) : string :=
  (get_symbol w c ++ format_2f w amount)%string.

(** Positions whose value texts show, in their order, amounts that add up
    to [sum]. *)
Definition shows_amounts (w : world) (positions : list position)
    (sum : float) : Prop :=
  exists amounts,
    map pos_value positions = map (value_text w "USD") amounts /\
    sum = total amounts.

(** The states in which [convert_currency] returns a number: the display
    currency is USD, or the test of line 107 does not start a refresh. *)
Definition returns_number (w : world) (s : invest_mate) : Prop :=
  currency s = "USD"%string \/
  (timedelta_seconds (now w - last_updated_currency_date s) <= 600)%Z.

(** The number it returns there. *)
Definition converted_amount (s : invest_mate) (amount : float) : float :=
  if String.eqb (currency s) "USD" then amount
  else (amount * currency_rate s)%float.

(* ================================================================== *)
(** * Scenarios

    Concrete worlds and application states on which the methods are run. *)

Definition AAPL : cell := CStr "AAPL".
Definition ZZZZ : cell := CStr "ZZZZ".

(** [float] on the numerals that occur in the scenarios. *)
Definition numerals (s : string) : option float :=
  if String.eqb s "0" then Some 0%float
  else if String.eqb s "1" then Some 1%float
  else if String.eqb s "5" then Some 5%float
  else if String.eqb s "10" then Some 10%float
  else if String.eqb s "100" then Some 100%float
  else if String.eqb s "120" then Some 120%float
  else None.

(** Dates [YYYY-MM-DD] that occur in the scenarios, in microseconds. *)
Definition iso_dates (s fmt : string) : option Z :=
  if negb (String.eqb fmt "%Y-%m-%d") then None
  else if String.eqb s "2023-01-01" then Some (days 19358)
  else if String.eqb s "2023-06-01" then Some (days 19509)
  else if String.eqb s "2031-01-01" then Some (days 22280)
  else None.

(** The signs of the currencies that occur in the scenarios. *)
Definition signs (c : string) : string :=
  if String.eqb c "USD" then "$"%string
  else if String.eqb c "EUR" then "€"%string
  else "None"%string.

(** [.2f] on the amounts that occur in the scenarios. *)
Definition two_decimals (x : float) : string :=
  if PrimFloat.eqb x 0 then "0.00"%string
  else if PrimFloat.eqb x 750 then "750.00"%string
  else if PrimFloat.eqb x 1500 then "1500.00"%string
  else "?"%string.

(** A world whose providers answer as given, at time [t]; no symbol search
    ever matches, and pandas is not reachable. *)
Definition a_world (t : Z) (fx : string -> outcome float)
    (search : cell -> outcome search_result)
    (history : cell -> outcome (list bar)) : world := {|
  now := t;
  fx_rates := fx;
  finnhub_search := search;
  ticker_history := history;
  float_of_string := numerals;
  strftime_dmy := fun _ => "01/07/2024"%string;
  str_strip := fun c => match c with CStr s => s | CNum _ => "nan"%string end;
  get_symbol := signs;
  format_2f := two_decimals;
  strptime := iso_dates;
  to_datetime := fun _ => Raise ValueError;
  yf_download := fun _ _ _ => Return (Some [(days 19900, 150%float)]);
  concat_sum := fun dfs =>
    map (fun df => (fst (series_name df), 0%float)) dfs;
  DataFrame := fun rows names => Return {| columns := names; values := rows |};
  to_csv := fun _ => ""%string;
  read_csv := fun _ => Raise ValueError
|}.

Definition no_match (_ : cell) : outcome search_result :=
  Return {| count := 0; result := [] |}.

Definition offline {A B} (_ : A) : outcome B := Raise ConnectionError.

(** 2024-07-01 00:00:00. *)
Definition t0 : Z := days 19905.

Definition seconds (n : Z) : Z := (n * 1000000)%Z.

(** The application started at [t0], switched to [c] with cached rate [r]. *)
Definition started_with (c : string) (r : float) : invest_mate :=
  set_currency_rate r (set_currency c (init t0 (fun _ => None))).

(** The feed quotes AAPL at open 149, close 150 and knows no other symbol. *)
Definition aapl_150 (symbol : cell) : outcome (list bar) :=
  if cell_eqb symbol AAPL then Return [{| Open := 149; Close := 150 |}]
  else Return [].

(** The FX provider quotes every currency at 0.5. *)
Definition fx_half (_ : string) : outcome float := Return 0.5%float.

(** Ten minutes and one second after start, the FX provider up or down. *)
Definition stale_online : world :=
  a_world (t0 + seconds 601) fx_half no_match aapl_150.
Definition stale_offline : world :=
  a_world (t0 + seconds 601) offline no_match aapl_150.

(** One day and a hundred seconds after start. *)
Definition next_day : world :=
  a_world (t0 + seconds 86500) fx_half no_match aapl_150.

(** The same moment with the FX provider down. *)
Definition next_day_offline : world :=
  a_world (t0 + seconds 86500) offline no_match aapl_150.

(** A quarter of an hour later nothing is reachable but the price feed. *)
Definition search_down : world :=
  a_world (t0 + seconds 900) offline offline aapl_150.

(** The feed fails for ZZZZ. *)
Definition zzzz_down : world :=
  a_world (t0 + seconds 100) fx_half no_match
    (fun symbol => if cell_eqb symbol ZZZZ then Raise ConnectionError
                   else aapl_150 symbol).

(** The feed reports a bar that opened at 0 and closed at 1. *)
Definition opened_at_zero : world :=
  a_world (t0 + seconds 100) fx_half no_match
    (fun _ => Return [{| Open := 0; Close := 1 |}]).

Definition online : world :=
  a_world (t0 + seconds 100) fx_half no_match aapl_150.

(** What the form hands to [update_portfolio]. *)
Definition form_aapl_100 : list string :=
  ["AAPL"; "100"; "1"; "10"; "2023-01-01"]%string.
Definition form_aapl_120 : list string :=
  ["AAPL"; "120"; "0"; "5"; "2023-06-01"]%string.

(** Grouped rows [holding[1:]]. *)
Definition lot_100 : row :=
  [CStr "100"; CStr "1"; CStr "10"; CStr "2023-01-01"; CStr "General"].
Definition lot_120 : row :=
  [CStr "120"; CStr "0"; CStr "5"; CStr "2023-06-01"; CStr "General"].

Definition fresh : invest_mate := init t0 (fun _ => None).

(** The lot that [lot_100] stands for. *)
Definition lot_of_100 : lot :=
  {| purchase_price := 100; fees := 1; units := 10 |}.

Definition a_position (symbol : cell) : position := {|
  pos_name := symbol; pos_symbol := symbol; pos_units := 10;
  pos_value := "$0.00"; pos_profit_loss_percent := 0;
  pos_category := CStr "General"; pos_purchase_date := CStr "2023-01-01"
|}.



(** The position that ZZZZ gets when its price cannot be fetched. *)
Definition zzzz_position : position := {|
  pos_name := ZZZZ; pos_symbol := ZZZZ; pos_units := 10;
  pos_value := "$0.00"; pos_profit_loss_percent := (-100)%float;
  pos_category := CStr "General"; pos_purchase_date := CStr "2023-01-01"
|}.

(** The application after the first AAPL lot was entered. *)
Definition holding_aapl : invest_mate :=
  snd (update_portfolio online form_aapl_100 fresh).

(** pandas on the tables of the scenarios.  Every export writes the text
    [portfolio_text]; it reads back as [portfolio_frame]; the text
    [units_text] reads as a table without prices. *)
Definition portfolio_text : string :=
  "Symbol,Purchase Price,Fees,Units,Date Purchased,Category / AAPL,100,1,10,2023-01-01,General".
Definition units_text : string := "Symbol,Units / AAPL,10".

Definition imported_row : row :=
  [AAPL; CNum 100; CNum 1; CNum 10; CStr "2023-01-01"; CStr "General"].

Definition portfolio_frame : frame :=
  {| columns := required_columns; values := [imported_row] |}.

Definition with_pandas (w : world) : world := {|
  now := now w;
  fx_rates := fx_rates w;
  finnhub_search := finnhub_search w;
  ticker_history := ticker_history w;
  float_of_string := float_of_string w;
  strftime_dmy := strftime_dmy w;
  str_strip := str_strip w;
  get_symbol := get_symbol w;
  format_2f := format_2f w;
  strptime := strptime w;
  to_datetime := to_datetime w;
  yf_download := yf_download w;
  concat_sum := concat_sum w;
  DataFrame := fun rows names => Return {| columns := names; values := rows |};
  to_csv := fun _ => portfolio_text;
  read_csv := fun content =>
    if String.eqb content portfolio_text then Return portfolio_frame
    else if String.eqb content units_text then
      Return {| columns := ["Symbol"; "Units"]%string;
                values := [[AAPL; CNum 10]] |}
    else Raise ValueError
|}.

Definition desktop : world := with_pandas online.

(** A disk holding an earlier export, and one holding the table without
    prices. *)
Definition old_export (path : string) : option string :=
  if String.eqb path "portfolio.csv" then Some portfolio_text else None.
Definition units_only (path : string) : option string :=
  if String.eqb path "units.csv" then Some units_text else None.

(** The application after [portfolio.csv] was imported. *)
Definition imported : invest_mate :=
  snd (load_portfolio desktop "portfolio.csv" (init t0 old_export)).

(** Holdings of which the second is dated 2031-01-01, after [t0]. *)
Definition row_2023 : row :=
  [AAPL; CStr "100"; CStr "1"; CStr "10"; CStr "2023-01-01"; CStr "General"].
Definition row_2031 : row :=
  [AAPL; CStr "100"; CStr "1"; CStr "10"; CStr "2031-01-01"; CStr "General"].

(** Any string of ASCII letters and digits counts as alphanumeric here. *)
Definition ascii_alnum (s : string) : bool :=
  negb (String.eqb s "") &&
  forallb (fun c => let n := Ascii.nat_of_ascii c in
                    ((48 <=? n) && (n <=? 57) || (65 <=? n) && (n <=? 90)
                     || (97 <=? n) && (n <=? 122))%nat)
          (list_ascii_of_string s).

(** A hundred seconds after start, with the FX provider down. *)
Definition fx_down : world :=
  a_world (t0 + seconds 100) offline no_match aapl_150.

(** AAPL, ZZZZ and AAPL again. *)
Definition row_zzzz : row :=
  [ZZZZ; CStr "100"; CStr "1"; CStr "10"; CStr "2023-01-01"; CStr "General"].
Definition three_rows : invest_mate :=
  set_portfolio_holdings [row_2023; row_zzzz; row_2031] fresh.

(** Values of the form with a price that is no number. *)
Definition form_bad_price : list string :=
  ["AAPL"; "a lot"; "1"; "10"; "2023-01-01"]%string.

(** Positions for AAPL and ZZZZ, in this order. *)
Definition two_positions : invest_mate :=
  set_total_portfolio_holdings [a_position AAPL; a_position ZZZZ] fresh.

(* ================================================================== *)
(** * Properties *)

(** ** Currency *)

Lemma update_currency_failure w s e :
  fx_rates w (currency s) = Raise e ->
  update_currency w s =
    (Return tt,
     set_shown (shown s ++
       [showerror "Currency Conversion Error" (ErrorFetchingRate e)]) s).
Proof.
  intros H. unfold update_currency, try_except, bind, gets, lift. cbn.
  rewrite H. reflexivity.
Qed.

Lemma update_currency_success w s r :
  fx_rates w (currency s) = Return r ->
  update_currency w s =
    (Return tt,
     set_currency_rate_last_updated (Some (now w)) (set_currency_rate r s)).
Proof.
  intros H. unfold update_currency, try_except, bind, gets, lift. cbn.
  rewrite H. reflexivity.
Qed.

(** C1.  [convert_currency] on a cached rate older than 600 seconds: the
    rate is refreshed (here to 0.5) but the call returns [None], not
    [amount * rate]; and a rate that is one day and a hundred seconds old
    is used without a refresh, because [timedelta.seconds] leaves the days
    out. *)
Theorem convert_currency_stale_returns_None :
  convert_currency stale_online 100 (started_with "EUR" 2) =
    (Return None,
     set_currency_rate_last_updated (Some (now stale_online))
       (set_currency_rate 0.5 (started_with "EUR" 2)))
  /\ convert_currency next_day 100 (started_with "EUR" 2) =
       (Return (Some 200%float), started_with "EUR" 2).
Proof. split; reflexivity. Qed.

(** What the refreshing branch does when the FX provider fails: it returns
    [None], shows the error box and leaves the cached rate as it was.  Any
    number returned while the provider is failing comes from a call that
    did not refresh: for USD, or for a cached rate that the test of line
    107 accepts. *)
Lemma convert_currency_refresh_failure w s amount e :
  fx_rates w (currency s) = Raise e ->
  (currency s <> "USD"%string ->
   (600 < timedelta_seconds (now w - last_updated_currency_date s))%Z ->
   convert_currency w amount s =
     (Return None,
      set_shown (shown s ++
        [showerror "Currency Conversion Error" (ErrorFetchingRate e)]) s))
  /\ (forall x s',
        convert_currency w amount s = (Return (Some x), s') ->
        s' = s /\
        (currency s = "USD"%string /\ x = amount \/
         currency s <> "USD"%string /\
         (timedelta_seconds (now w - last_updated_currency_date s) <= 600)%Z /\
         x = (amount * currency_rate s)%float)).
Proof.
  intros Hfx. unfold convert_currency, bind, gets, ret. cbn.
  destruct (String.eqb_spec (currency s) "USD") as [Husd | Husd].
  - split; [intros Hne; contradiction |].
    intros x s' H. inversion H; subst. split; [reflexivity |]. left. auto.
  - destruct (Z.ltb_spec 600 (timedelta_seconds (now w - last_updated_currency_date s)))
      as [Hstale | Hfresh].
    + rewrite (update_currency_failure w s e Hfx).
      split; [reflexivity |]. intros x s' H. discriminate H.
    + split; [intros _ Hlt; lia |].
      intros x s' H. inversion H; subst. split; [reflexivity |]. right. auto.
Qed.

(** C2.  With the FX provider down, conversions still return numbers made
    with rate 0 or with a rate a day old, and no caller is told.  Picking
    EUR a hundred seconds after start shows the error box once, keeps the
    rate 0 of [__init__] and values the AAPL position at 0.00; a further
    conversion of 100 returns 0 and shows nothing.  One day and a hundred
    seconds after a rate of 2 was cached, [timedelta.seconds] reads 100: no
    refresh is tried and 100 converts to 200.  Where the refresh is tried
    and fails, the caller receives the same [None] as after a refresh that
    succeeds. *)
Theorem refresh_failure_goes_unnoticed :
  (exists s',
     on_currency_selected fx_down "EUR" holding_aapl = (Return tt, s') /\
     shown s' =
       shown holding_aapl ++
       [showerror "Currency Conversion Error"
          (ErrorFetchingRate ConnectionError)] /\
     currency s' = "EUR"%string /\
     currency_rate s' = 0%float /\
     map pos_value (total_portfolio_holdings holding_aapl) = ["$1500.00"%string] /\
     map pos_value (total_portfolio_holdings s') = ["€0.00"%string] /\
     convert_currency fx_down 100 s' = (Return (Some 0%float), s'))
  /\ convert_currency next_day_offline 100 (started_with "EUR" 2) =
       (Return (Some 200%float), started_with "EUR" 2)
  /\ fst (convert_currency stale_offline 100 (started_with "EUR" 2)) =
       Return None
  /\ fst (convert_currency stale_online 100 (started_with "EUR" 2)) =
       Return None.
Proof.
  split.
  - eexists. split; [vm_compute; reflexivity |].
    repeat split; vm_compute; reflexivity.
  - repeat split; vm_compute; reflexivity.
Qed.

(** ** Per-symbol totals *)

Section Totals.
Variable w : world.
Variable current_price : float.

Lemma lot_step_adds acc r l :
  lot_of_row w r = Return l ->
  (i acc <> 0%Z \/ exists c3, getitem r 3 = Return c3) ->
  exists acc',
    lot_step w current_price acc r = Return acc' /\
    i acc' <> 0%Z /\
    total_units acc' = (total_units acc + units l)%float /\
    total_investment_value acc' =
      (total_investment_value acc + spec_cost_basis l)%float /\
    total_current_value acc' =
      (total_current_value acc + spec_current_value current_price l)%float /\
    total_symbol_value acc' =
      (total_symbol_value acc + spec_current_value current_price l)%float /\
    total_symbol_profit_loss acc' =
      (total_symbol_profit_loss acc + spec_lot_profit_loss current_price l)%float.
Proof.
  unfold lot_of_row, lot_step. intros Hl Hdate.
  destruct (getitem r 0) as [c0 |]; cbn in *; [| discriminate].
  destruct (py_float w c0) as [p |]; cbn in *; [| discriminate].
  destruct (getitem r 1) as [c1 |]; cbn in *; [| discriminate].
  destruct (py_float w c1) as [f |]; cbn in *; [| discriminate].
  destruct (getitem r 2) as [c2 |]; cbn in *; [| discriminate].
  destruct (py_float w c2) as [u |]; cbn in *; [| discriminate].
  injection Hl as <-.
  destruct (Z.eqb_spec (i acc) 0) as [Hi | Hi].
  - destruct Hdate as [Hne | [c3 Hc3]]; [contradiction |].
    rewrite Hc3. cbn. eexists. split; [reflexivity |].
    cbn. rewrite Hi. repeat split. discriminate.
  - eexists. split; [reflexivity |]. cbn. repeat split. assumption.
Qed.

Lemma lots_loop_adds rows lots :
  Forall2 (fun r l => lot_of_row w r = Return l) rows lots ->
  forall acc, i acc <> 0%Z ->
  exists acc',
    lots_loop w current_price acc rows = Return acc' /\
    total_units acc' =
      fold_left PrimFloat.add (map units lots) (total_units acc) /\
    total_investment_value acc' =
      fold_left PrimFloat.add (map spec_cost_basis lots)
        (total_investment_value acc) /\
    total_current_value acc' =
      fold_left PrimFloat.add (map (spec_current_value current_price) lots)
        (total_current_value acc) /\
    total_symbol_value acc' =
      fold_left PrimFloat.add (map (spec_current_value current_price) lots)
        (total_symbol_value acc) /\
    total_symbol_profit_loss acc' =
      fold_left PrimFloat.add (map (spec_lot_profit_loss current_price) lots)
        (total_symbol_profit_loss acc).
Proof.
  induction 1 as [| r l rows lots Hl _ IH]; intros acc Hi.
  - exists acc. cbn. repeat split.
  - destruct (@lot_step_adds acc r l Hl (or_introl Hi))
      as (acc1 & Hstep & Hi1 & Hu & Hc & Hv & Hs & Hp).
    destruct (IH acc1 Hi1) as (acc' & Hloop & Hu' & Hc' & Hv' & Hs' & Hp').
    rewrite Hu in Hu'. rewrite Hc in Hc'. rewrite Hv in Hv'.
    rewrite Hs in Hs'. rewrite Hp in Hp'.
    exists acc'. cbn [lots_loop map fold_left]. rewrite Hstep. cbn [obind].
    repeat split; assumption.
Qed.

End Totals.

Lemma lots_loop_sums w current_price first rest lots :
  Forall2 (fun r l => lot_of_row w r = Return l) (first :: rest) lots ->
  (exists c3, getitem first 3 = Return c3) ->
  exists acc,
    lots_loop w current_price (initial_locals w) (first :: rest) = Return acc /\
    total_investment_value acc = total (map spec_cost_basis lots) /\
    total_current_value acc = total (map (spec_current_value current_price) lots) /\
    total_symbol_value acc = total (map (spec_current_value current_price) lots) /\
    total_symbol_profit_loss acc =
      total (map (spec_lot_profit_loss current_price) lots) /\
    total_units acc = total (map units lots).
Proof.
  intros Hrows Hdate.
  inversion Hrows as [| r l rows lots' Hl Hrest]; subst.
  destruct (@lot_step_adds w current_price (initial_locals w) first l Hl
              (or_intror Hdate))
    as (acc1 & Hstep & Hi1 & Hu & Hc & Hv & Hs & Hp).
  destruct (@lots_loop_adds w current_price rest lots' Hrest acc1 Hi1)
    as (acc & Hloop & Hu' & Hc' & Hv' & Hs' & Hp').
  rewrite Hu in Hu'. rewrite Hc in Hc'. rewrite Hv in Hv'.
  rewrite Hs in Hs'. rewrite Hp in Hp'.
  exists acc. cbn [lots_loop]. rewrite Hstep. cbn [obind].
  unfold total. cbn [map fold_left].
  repeat split; assumption.
Qed.

(** C5.  For rows that stand for lots, the loop over the lots of a symbol
    adds, lot by lot, cost_basis = purchase_price*units - fees,
    current_value = current_price*units and their difference; its totals
    are the sums of these over the lots.  For the lots (100, fees 1, 10
    units) and (120, fees 0, 5 units) at price 150 the totals are 1599,
    2250 and 651, and the percentage lies between 40.71 and 40.72. *)
Theorem lots_loop_totals :
  (forall w current_price first rest lots,
     Forall2 (fun r l => lot_of_row w r = Return l) (first :: rest) lots ->
     (exists c3, getitem first 3 = Return c3) ->
     exists acc,
       lots_loop w current_price (initial_locals w) (first :: rest) = Return acc /\
       total_investment_value acc = total (map spec_cost_basis lots) /\
       total_current_value acc = total (map (spec_current_value current_price) lots) /\
       total_symbol_value acc = total (map (spec_current_value current_price) lots) /\
       total_symbol_profit_loss acc =
         total (map (spec_lot_profit_loss current_price) lots) /\
       total_units acc = total (map units lots))
  /\ (exists acc p,
        lots_loop online 150 (initial_locals online) [lot_100; lot_120] = Return acc /\
        total_investment_value acc = 1599%float /\
        total_current_value acc = 2250%float /\
        total_symbol_profit_loss acc = 651%float /\
        percent_or_zero (total_symbol_profit_loss acc) (total_investment_value acc)
          = Return p /\
        (4071 / 100 <=? p)%float = true /\ (p <? 4072 / 100)%float = true).
Proof.
  split.
  - intros w current_price first rest lots. apply lots_loop_sums.
  - eexists. eexists. repeat split; vm_compute; reflexivity.
Qed.

Lemma lots_loop_totals_witness :
  exists acc,
    lots_loop online 150 (initial_locals online) [lot_100; lot_120] = Return acc /\
    total_investment_value acc =
      total (map spec_cost_basis
               [{| purchase_price := 100; fees := 1; units := 10 |};
                {| purchase_price := 120; fees := 0; units := 5 |}]).
Proof.
  destruct (proj1 lots_loop_totals online 150%float lot_100 [lot_120]
              [{| purchase_price := 100; fees := 1; units := 10 |};
               {| purchase_price := 120; fees := 0; units := 5 |}])
    as (acc & Hloop & Hc & _).
  - repeat constructor.
  - eexists. reflexivity.
  - exists acc. split; assumption.
Defined.

(** ** The guarded percentage *)

Lemma percent_or_zero_eq n d :
  percent_or_zero n d =
    Return (if ne0 d then (n / d * 100)%float else 0%float).
Proof.
  unfold percent_or_zero, truediv, ne0.
  destruct (PrimFloat.eqb d 0); reflexivity.
Qed.

Ltac run_step H :=
  match type of H with
  | context [match ?c with _ => _ end] =>
      let E := fresh "E" in destruct c eqn:E; cbn in H; try discriminate H
  end.


(** ** The loop over the symbols *)

Lemma getitem_lt {A} (l : list A) n :
  (n < List.length l)%nat -> exists x, getitem l n = Return x.
Proof.
  intros H. unfold getitem.
  destruct (nth_error l n) as [x |] eqn:E; [eexists; reflexivity |].
  apply nth_error_None in E. lia.
Qed.

Lemma get_current_price_failure w symbol s e :
  last_of w Close symbol = Raise e ->
  get_current_price w symbol s =
    (Return 0%float,
     set_shown (shown s ++
       [showerror "Portfolio Update" (ErrorFetchingData symbol e)]) s).
Proof.
  intros H. unfold get_current_price, try_except, lift. rewrite H.
  reflexivity.
Qed.

Lemma symbols_loop_returns w grouped :
  forall edited s,
  exists edited' s', symbols_loop w grouped edited s = (Return edited', s').
Proof.
  induction grouped as [| [symbol lots] rest IH]; intros edited s.
  - exists edited, s. reflexivity.
  - cbn [symbols_loop]. unfold bind at 1. unfold try_except.
    destruct (symbol_body w symbol lots edited s) as [[edited1 | e] s1].
    + apply IH.
    + cbn. apply IH.
Qed.

Lemma symbols_loop_app w g1 :
  forall g2 edited s,
  symbols_loop w (g1 ++ g2) edited s =
    bind (symbols_loop w g1 edited) (symbols_loop w g2) s.
Proof.
  induction g1 as [| [symbol lots] rest IH]; intros g2 edited s.
  - reflexivity.
  - cbn [symbols_loop app]. unfold bind at 1 3 4.
    destruct (try_except _ _ s) as [[edited1 | e] s1].
    + apply IH.
    + reflexivity.
Qed.

Lemma symbols_loop_name_failure w symbol lots rest edited s e :
  finnhub_search w symbol = Raise e ->
  symbols_loop w ((symbol, lots) :: rest) edited s =
    symbols_loop w rest edited
      (set_shown (shown s ++
         [showerror "Portfolio Update" (ErrorFetchingData symbol e)]) s).
Proof.
  intros H. cbn [symbols_loop]. unfold bind at 1.
  unfold try_except, symbol_body. unfold bind at 1. unfold lift at 1.
  rewrite H. reflexivity.
Qed.

Lemma format_converted_number w v s :
  returns_number w s ->
  format_converted w v s =
    (Return (get_symbol w (currency s) ++ format_2f w (converted_amount s v))%string,
     s).
Proof.
  intros H. unfold format_converted, convert_currency, converted_amount,
    bind, gets, ret. cbn.
  destruct (String.eqb_spec (currency s) "USD") as [Husd | Husd];
    [reflexivity |].
  destruct H as [H | H]; [contradiction |].
  destruct (Z.ltb_spec 600 (timedelta_seconds (now w - last_updated_currency_date s)))
    as [Hlt | _]; [lia | reflexivity].
Qed.

(** With the price taken as 0 a symbol is still valued: where the conversion
    of its value returns a number, its position is entered and its lots'
    profit/loss at price 0 joins the portfolio's. *)
Lemma symbol_body_price_failure w symbol first rest lots edited s e found :
  finnhub_search w symbol = Return found ->
  ((count found <= 0)%Z \/ result found <> []) ->
  last_of w Close symbol = Raise e ->
  Forall2 (fun r l => lot_of_row w r = Return l) (first :: rest) lots ->
  (exists c3, getitem first 3 = Return c3) ->
  returns_number w s ->
  exists p s',
    symbol_body w symbol (first :: rest) edited s =
      (Return (dict_set symbol p edited), s') /\
    pos_symbol p = symbol /\
    pos_units p = total (map units lots) /\
    pos_value p =
      (get_symbol w (currency s) ++
       format_2f w (converted_amount s (total (map (spec_current_value 0) lots))))%string /\
    shown s' =
      shown s ++ [showerror "Portfolio Update" (ErrorFetchingData symbol e)] /\
    total_profit_loss s' =
      (total_profit_loss s + total (map (spec_lot_profit_loss 0) lots))%float /\
    total_portfolio_value s' =
      (total_portfolio_value s + total (map (spec_current_value 0) lots))%float.
Proof.
  intros Hsearch Hname Hprice Hrows Hdate Hconv.
  destruct (@lots_loop_sums w 0%float first rest lots Hrows Hdate)
    as (acc & Hloop & Hc & Hv & Hs & Hp & Hu).
  unfold symbol_body. unfold bind at 1. unfold lift at 1. rewrite Hsearch.
  unfold bind at 1. unfold lift at 1. cbn [getitem nth_error].
  assert (Hcat : exists category s0,
     (if (4 <? List.length first)%nat
      then lift (getitem first 4) else ret (CStr "General")) s
     = (Return category, s0) /\ s0 = s).
  { destruct (Nat.ltb_spec 4 (List.length first)) as [Hlt | Hge].
    - destruct (getitem_lt first 4 Hlt) as [c Hc4]. exists c, s.
      unfold lift. rewrite Hc4. auto.
    - exists (CStr "General"), s. auto. }
  destruct Hcat as (category & s0 & Hcat & ->).
  unfold bind at 1. rewrite Hcat.
  assert (Hnm : exists name,
     (if (0 <? count found)%Z
      then bind (lift (getitem (result found) 0)) (fun d => ret (CStr d))
      else ret symbol) s = (Return name, s)).
  { destruct (Z.ltb_spec 0 (count found)) as [Hlt | Hge].
    - destruct Hname as [Hle | Hne]; [lia |].
      destruct (result found) as [| d ds]; [contradiction |].
      exists (CStr d). reflexivity.
    - exists symbol. reflexivity. }
  destruct Hnm as (name & Hnm).
  unfold bind at 1. rewrite Hnm.
  unfold bind at 1. rewrite (get_current_price_failure w symbol s e Hprice).
  unfold bind at 1. unfold lift at 1. rewrite Hloop.
  unfold bind, modify, gets, lift, ret. cbn.
  rewrite percent_or_zero_eq.
  unfold format_converted, convert_currency, converted_amount,
    bind, gets, ret. cbn.
  destruct (String.eqb_spec (currency s) "USD") as [Husd | Husd].
  - cbn. rewrite percent_or_zero_eq.
    eexists. eexists. split; [reflexivity |]. cbn.
    rewrite Hu, Hs, Hp. repeat split.
  - destruct Hconv as [Hconv | Hconv]; [contradiction |].
    assert (Hfresh :
      (600 <? timedelta_seconds (now w - last_updated_currency_date s))%Z
      = false) by (apply Z.ltb_ge; exact Hconv).
    cbn. rewrite Hfresh. cbn. rewrite percent_or_zero_eq.
    eexists. eexists. split; [reflexivity |]. cbn.
    rewrite Hu, Hs, Hp. repeat split.
Qed.

(** C3, as stated, fails when the price of a symbol cannot be fetched: the
    symbol ZZZZ, one lot of 10 units bought at 100 with fees 1, enters the
    position list and takes 999 off the portfolio's profit/loss. *)
Lemma price_failure_keeps_symbol :
  last_of zzzz_down Close ZZZZ = Raise ConnectionError /\
  fst (symbols_loop zzzz_down [(ZZZZ, [lot_100])] [] fresh) =
    Return [(ZZZZ, zzzz_position)] /\
  total_profit_loss (snd (symbols_loop zzzz_down [(ZZZZ, [lot_100])] [] fresh)) =
    (-999)%float /\
  total_profit_loss fresh = 0%float.
Proof. repeat split; vm_compute; reflexivity. Qed.

(** C3, amended.  The loop over the symbols catches every failure and runs
    to its end, so the symbols after a failing one are aggregated from the
    state it leaves.  A failed lookup of the display name omits the symbol:
    only the error box is added.  A failed price fetch is caught in
    [get_current_price], which shows the error box and returns 0; the
    symbol is then valued at price 0.  Where the conversion of its value
    returns a number (the display currency is USD, or the test of line 107
    starts no refresh), its position is entered with the text of the
    converted value 0 and its lots' profit/loss at price 0 is added to the
    portfolio's. *)
Theorem symbols_loop_failures w :
  (forall grouped edited s,
     exists edited' s', symbols_loop w grouped edited s = (Return edited', s'))
  /\ (forall g1 g2 edited s,
        symbols_loop w (g1 ++ g2) edited s =
          bind (symbols_loop w g1 edited) (symbols_loop w g2) s)
  /\ (forall symbol lots rest edited s e,
        finnhub_search w symbol = Raise e ->
        symbols_loop w ((symbol, lots) :: rest) edited s =
          symbols_loop w rest edited
            (set_shown (shown s ++
               [showerror "Portfolio Update" (ErrorFetchingData symbol e)]) s))
  /\ (forall symbol s e,
        last_of w Close symbol = Raise e ->
        get_current_price w symbol s =
          (Return 0%float,
           set_shown (shown s ++
             [showerror "Portfolio Update" (ErrorFetchingData symbol e)]) s))
  /\ (forall symbol first rest lots edited s e found,
        finnhub_search w symbol = Return found ->
        ((count found <= 0)%Z \/ result found <> []) ->
        last_of w Close symbol = Raise e ->
        Forall2 (fun r l => lot_of_row w r = Return l) (first :: rest) lots ->
        (exists c3, getitem first 3 = Return c3) ->
        returns_number w s ->
        exists p s',
          symbol_body w symbol (first :: rest) edited s =
            (Return (dict_set symbol p edited), s') /\
          pos_symbol p = symbol /\
          pos_units p = total (map units lots) /\
          pos_value p =
            (get_symbol w (currency s) ++
             format_2f w
               (converted_amount s (total (map (spec_current_value 0) lots))))%string /\
          shown s' =
            shown s ++
            [showerror "Portfolio Update" (ErrorFetchingData symbol e)] /\
          total_profit_loss s' =
            (total_profit_loss s + total (map (spec_lot_profit_loss 0) lots))%float /\
          total_portfolio_value s' =
            (total_portfolio_value s + total (map (spec_current_value 0) lots))%float).
Proof.
  split; [| split; [| split; [| split]]].
  - apply symbols_loop_returns.
  - intros g1. apply symbols_loop_app.
  - intros. now apply symbols_loop_name_failure.
  - intros. now apply get_current_price_failure.
  - intros. now apply symbol_body_price_failure with (found := found).
Qed.

Lemma symbols_loop_failures_witness :
  symbols_loop search_down [(AAPL, [lot_100])] [] fresh =
    (Return [],
     set_shown [showerror "Portfolio Update"
                  (ErrorFetchingData AAPL ConnectionError)] fresh)
  /\ exists p s',
       symbol_body zzzz_down ZZZZ [lot_100] [] (started_with "EUR" 2) =
         (Return (dict_set ZZZZ p []), s') /\
       pos_symbol p = ZZZZ /\
       pos_units p = total (map units [lot_of_100]) /\
       pos_value p =
         (get_symbol zzzz_down (currency (started_with "EUR" 2)) ++
          format_2f zzzz_down
            (converted_amount (started_with "EUR" 2)
               (total (map (spec_current_value 0) [lot_of_100]))))%string /\
       shown s' =
         shown (started_with "EUR" 2) ++
         [showerror "Portfolio Update"
            (ErrorFetchingData ZZZZ ConnectionError)] /\
       total_profit_loss s' =
         (total_profit_loss (started_with "EUR" 2) +
          total (map (spec_lot_profit_loss 0) [lot_of_100]))%float /\
       total_portfolio_value s' =
         (total_portfolio_value (started_with "EUR" 2) +
          total (map (spec_current_value 0) [lot_of_100]))%float.
Proof.
  split.
  - rewrite (proj1 (proj2 (proj2 (symbols_loop_failures search_down)))
               AAPL [lot_100] [] [] fresh ConnectionError eq_refl).
    reflexivity.
  - apply (proj2 (proj2 (proj2 (proj2 (symbols_loop_failures zzzz_down))))
             ZZZZ lot_100 [] [lot_of_100] [] (started_with "EUR" 2)
             ConnectionError {| count := 0; result := [] |}).
    + reflexivity.
    + left. cbn. lia.
    + reflexivity.
    + repeat constructor.
    + eexists. reflexivity.
    + right. vm_compute. discriminate.
Defined.

(** C4.  A pass whose totals are both 0 leaves [total_profit_loss_percent]
    as the pass before set it.  With one AAPL lot held, the first pass sets
    it to 501/999*100; the currency selector then starts a pass while the
    symbol search is down, which ends with value 0, profit/loss 0 and the
    percentage still 501/999*100. *)
Theorem total_profit_loss_percent_kept :
  total_profit_loss_percent holding_aapl = (501 / 999 * 100)%float /\
  exists s',
    on_currency_selected search_down "USD" holding_aapl = (Return tt, s') /\
    total_portfolio_value s' = 0%float /\
    total_profit_loss s' = 0%float /\
    ne0 (total_portfolio_value s' - total_profit_loss s') = false /\
    total_profit_loss_percent s' = (501 / 999 * 100)%float /\
    ne0 (total_profit_loss_percent s') = true.
Proof.
  split; [vm_compute; reflexivity |].
  eexists. split; [vm_compute; reflexivity |].
  repeat split; vm_compute; reflexivity.
Qed.


(** ** The daily change *)

Lemma last_of_last_bar w symbol b column :
  last_bar w symbol = Some b -> last_of w column symbol = Return (column b).
Proof.
  unfold last_bar, last_of. destruct (ticker_history w symbol) as [bars |];
    [| discriminate].
  cbn. destruct (rev bars); [discriminate |].
  intros H. injection H as ->. reflexivity.
Qed.

Lemma daily_change_step_quoted w p b s :
  last_bar w (pos_symbol p) = Some b ->
  daily_change_step w p s =
    (Return tt,
     set_daily_change_percent
       (daily_change_percent s + bar_change_percent b)%float
       (set_daily_change (daily_change s + bar_change b)%float s)).
Proof.
  intros Hb. unfold daily_change_step, bind, gets, lift, modify.
  rewrite !(last_of_last_bar _ _ _ _ Hb). reflexivity.
Qed.

Lemma daily_change_loop w positions bars :
  Forall2 (fun p b => last_bar w (pos_symbol p) = Some b) positions bars ->
  forall s,
  exists s',
    for_each positions (daily_change_step w) s = (Return tt, s') /\
    daily_change s' =
      fold_left PrimFloat.add (map bar_change bars) (daily_change s) /\
    daily_change_percent s' =
      fold_left PrimFloat.add (map bar_change_percent bars)
        (daily_change_percent s) /\
    total_portfolio_holdings s' = total_portfolio_holdings s.
Proof.
  induction 1 as [| p b positions bars Hb _ IH]; intros s.
  - exists s. repeat split.
  - cbn [for_each]. unfold bind.
    rewrite (daily_change_step_quoted _ _ _ _ Hb).
    match goal with |- context [for_each positions _ ?s1] =>
      destruct (IH s1) as (s' & Hrun & Hdc & Hdcp & Hpos) end.
    exists s'. rewrite Hrun. split; [reflexivity |].
    rewrite Hdc, Hdcp, Hpos. repeat split.
Qed.

(** C10, as stated, fails for an opening price of 0: the pass over the one
    position AAPL, whose latest bar opened at 0 and closed at 1, returns,
    with [daily_change_percent] at plus infinity. *)
Lemma daily_change_returns_on_zero_open :
  ~ (forall w s,
       (exists s', calculate_daily_change w s = (Return tt, s')) ->
       forall p b,
         In p (total_portfolio_holdings s) ->
         last_bar w (pos_symbol p) = Some b ->
         PrimFloat.eqb (Open b) 0 = false).
Proof.
  intros H.
  specialize (H opened_at_zero
                (set_total_portfolio_holdings [a_position AAPL] fresh)).
  assert (Hz : PrimFloat.eqb (Open {| Open := 0; Close := 1 |}) 0 = false).
  { apply H with (p := a_position AAPL).
    - eexists. vm_compute. reflexivity.
    - left. reflexivity.
    - reflexivity. }
  vm_compute in Hz. discriminate Hz.
Qed.

(** C10, amended.  Over positions whose symbols all have a latest daily
    bar, the daily-change pass returns; it adds close - open of each bar to
    [daily_change] and (close - open)/open*100 to [daily_change_percent],
    position by position, dividing by the opening price without a test.
    The division is the IEEE-754 one, so an opening price of 0 does not
    stop the pass: the quotient is an infinity or NaN and is added like any
    other, as for the bar that opened at 0 and closed at 1. *)
Theorem calculate_daily_change_sums w s bars :
  Forall2 (fun p b => last_bar w (pos_symbol p) = Some b)
    (total_portfolio_holdings s) bars ->
  (exists s',
     calculate_daily_change w s = (Return tt, s') /\
     daily_change s' =
       fold_left PrimFloat.add (map bar_change bars) (daily_change s) /\
     daily_change_percent s' =
       fold_left PrimFloat.add (map bar_change_percent bars)
         (daily_change_percent s))
  /\ bar_change_percent {| Open := 0; Close := 1 |} = infinity.
Proof.
  intros H. split; [| reflexivity].
  destruct (daily_change_loop _ _ _ H s) as (s' & Hrun & Hdc & Hdcp & _).
  exists s'. unfold calculate_daily_change, bind, gets. rewrite Hrun.
  repeat split; assumption.
Qed.

Lemma calculate_daily_change_sums_witness :
  exists s',
    calculate_daily_change opened_at_zero
      (set_total_portfolio_holdings [a_position AAPL] fresh) = (Return tt, s') /\
    daily_change s' = 1%float /\
    daily_change_percent s' = infinity.
Proof.
  destruct (proj1 (@calculate_daily_change_sums opened_at_zero
              (set_total_portfolio_holdings [a_position AAPL] fresh)
              [{| Open := 0; Close := 1 |}]
              ltac:(repeat constructor)))
    as (s' & Hrun & Hdc & Hdcp).
  exists s'. split; [exact Hrun |]. split; [exact Hdc | exact Hdcp].
Defined.

(** ** What leaves the holdings alone *)

Lemma keeps_ret {A} (a : A) : keeps_holdings (ret a).
Proof. intros s. reflexivity. Qed.

Lemma keeps_raise {A} e : keeps_holdings (@raise A e).
Proof. intros s. reflexivity. Qed.

Lemma keeps_lift {A} (o : outcome A) : keeps_holdings (lift o).
Proof. intros s. reflexivity. Qed.

Lemma keeps_gets {A} (f : invest_mate -> A) : keeps_holdings (gets f).
Proof. intros s. reflexivity. Qed.

Lemma keeps_modify f :
  (forall s, portfolio_holdings (f s) = portfolio_holdings s) ->
  keeps_holdings (modify f).
Proof. intros H s. apply H. Qed.

Lemma keeps_bind {A B} (c : M A) (k : A -> M B) :
  keeps_holdings c -> (forall a, keeps_holdings (k a)) ->
  keeps_holdings (bind c k).
Proof.
  intros Hc Hk s. unfold bind. specialize (Hc s).
  destruct (c s) as [[a | e] s1]; cbn in *.
  - rewrite (Hk a s1). exact Hc.
  - exact Hc.
Qed.

Lemma keeps_try_except {A} (c : M A) h :
  keeps_holdings c -> (forall e, keeps_holdings (h e)) ->
  keeps_holdings (try_except c h).
Proof.
  intros Hc Hh s. unfold try_except. specialize (Hc s).
  destruct (c s) as [[a | e] s1]; cbn in *.
  - exact Hc.
  - rewrite (Hh e s1). exact Hc.
Qed.

Lemma keeps_for_each {A} (l : list A) body :
  (forall x, keeps_holdings (body x)) -> keeps_holdings (for_each l body).
Proof.
  intros H. induction l as [| x l IH]; cbn [for_each].
  - apply keeps_ret.
  - apply keeps_bind; [apply H | intros _; exact IH].
Qed.

Ltac frame :=
  repeat first
    [ apply keeps_ret | apply keeps_raise | apply keeps_lift | apply keeps_gets
    | apply keeps_modify; intros ?; reflexivity
    | apply keeps_bind; [| intros ?]
    | apply keeps_try_except; [| intros ?]
    | apply keeps_for_each; intros ?
    | match goal with
      | |- keeps_holdings (if ?b then _ else _) => destruct b
      | |- keeps_holdings (match ?x with _ => _ end) => destruct x
      end ].

Lemma keeps_messagebox d : keeps_holdings (messagebox d).
Proof. unfold messagebox. frame. Qed.

Lemma keeps_update_currency w : keeps_holdings (update_currency w).
Proof. unfold update_currency. frame. Qed.

Lemma keeps_convert_currency w amount :
  keeps_holdings (convert_currency w amount).
Proof. unfold convert_currency. frame; apply keeps_update_currency. Qed.

Lemma keeps_get_current_price w symbol :
  keeps_holdings (get_current_price w symbol).
Proof. unfold get_current_price. frame. Qed.

Lemma keeps_symbol_body w symbol lots edited :
  keeps_holdings (symbol_body w symbol lots edited).
Proof.
  unfold symbol_body, format_converted.
  frame; first [apply keeps_get_current_price | apply keeps_convert_currency].
Qed.

Lemma keeps_symbols_loop w grouped :
  forall edited, keeps_holdings (symbols_loop w grouped edited).
Proof.
  induction grouped as [| [symbol lots] rest IH]; intros edited;
    cbn [symbols_loop].
  - apply keeps_ret.
  - apply keeps_bind; [| intros a; apply IH].
    apply keeps_try_except; [apply keeps_symbol_body |].
    intros e. apply keeps_bind; [apply keeps_messagebox | intros _; apply keeps_ret].
Qed.

Lemma keeps_calculate_daily_change w :
  keeps_holdings (calculate_daily_change w).
Proof. unfold calculate_daily_change, daily_change_step. frame. Qed.

(** A pass that adds no holding keeps the holdings. *)
Lemma keeps_update_portfolio_nil w : keeps_holdings (update_portfolio w []).
Proof.
  unfold update_portfolio, group_portfolio_holdings. cbn [List.length Nat.ltb Nat.leb].
  frame; first [apply keeps_symbols_loop | apply keeps_calculate_daily_change].
Qed.

(** ** CSV export and import *)

Lemma has_column_In df col : has_column df col = true <-> In col (columns df).
Proof.
  unfold has_column. rewrite existsb_exists. split.
  - intros (x & Hin & Heq). apply String.eqb_eq in Heq. now subst.
  - intros Hin. exists col. split; [exact Hin | apply String.eqb_refl].
Qed.

Lemma eqb_empty_false path : path <> ""%string -> String.eqb path "" = false.
Proof. intros H. now apply String.eqb_neq. Qed.









(** C8.  Importing a file that pandas reads as a table lacking one of the
    six required columns shows the error box "Invalid file format." and
    changes nothing else: the holdings stay as they were. *)
Theorem load_portfolio_missing_column w file_path s content df col :
  file_path <> ""%string ->
  disk s file_path = Some content ->
  read_csv w content = Return df ->
  In col required_columns ->
  ~ In col (columns df) ->
  load_portfolio w file_path s =
    (Return tt,
     set_shown (shown s ++
       [showerror "Load Portfolio" (Lit "Invalid file format.")]) s)
  /\ portfolio_holdings (snd (load_portfolio w file_path s)) =
       portfolio_holdings s.
Proof.
  intros Hpath Hfile Hread Hreq Hmiss.
  assert (Hload : load_portfolio w file_path s =
    (Return tt,
     set_shown (shown s ++
       [showerror "Load Portfolio" (Lit "Invalid file format.")]) s)).
  { unfold load_portfolio. rewrite (eqb_empty_false _ Hpath).
    unfold try_except, bind at 1. unfold read_file, bind at 1, gets at 1.
    rewrite Hfile. unfold lift. rewrite Hread.
    assert (Hall : forallb (has_column df) required_columns = false).
    { destruct (forallb (has_column df) required_columns) eqn:E; [| reflexivity].
      exfalso. apply Hmiss. apply has_column_In.
      exact (proj1 (forallb_forall _ _) E col Hreq). }
    rewrite Hall. reflexivity. }
  split; [exact Hload |]. rewrite Hload. reflexivity.
Qed.

Lemma load_portfolio_missing_column_witness :
  portfolio_holdings
    (snd (load_portfolio desktop "units.csv" (set_disk units_only imported))) =
  [imported_row].
Proof.
  rewrite (proj2 (load_portfolio_missing_column desktop "units.csv"
                    (set_disk units_only imported) units_text
                    {| columns := ["Symbol"; "Units"]%string;
                       values := [[AAPL; CNum 10]] |}
                    "Fees"%string
                    ltac:(discriminate) eq_refl eq_refl
                    ltac:(vm_compute; tauto)
                    ltac:(vm_compute; intros [H | [H | H]];
                          [discriminate H | discriminate H | exact H]))).
  vm_compute. reflexivity.
Defined.

(** ** The tasks of the chart *)

Section Tasks.
Variable w : world.
Variable end_date : Z.

Lemma task_of_Some idx h t :
  task_of w end_date idx h = Return (Some t) ->
  exists c0 c3 c4 units d,
    getitem h 0 = Return c0 /\
    getitem h 3 = Return c3 /\ py_float w c3 = Return units /\
    getitem h 4 = Return c4 /\
    parse_purchase_date w (str_strip w c4) = Return d /\
    (d <= end_date)%Z /\
    t = (idx, str_strip w c0, units, d).
Proof.
  unfold task_of. intros H.
  destruct (getitem h 0) as [c0 |] eqn:H0; cbn in H; [| discriminate H].
  destruct (getitem h 3) as [c3 |] eqn:H3; cbn in H; [| discriminate H].
  destruct (py_float w c3) as [units |] eqn:Hu; cbn in H; [| discriminate H].
  destruct (getitem h 4) as [c4 |] eqn:H4; cbn in H; [| discriminate H].
  destruct (parse_purchase_date w (str_strip w c4)) as [d |] eqn:Hd; cbn in H;
    [| discriminate H].
  destruct (Z.ltb_spec end_date d) as [Hlt | Hle]; [discriminate H |].
  injection H as <-. exists c0, c3, c4, units, d. repeat split; assumption.
Qed.

Lemma task_of_future idx h c4 d :
  getitem h 4 = Return c4 ->
  parse_purchase_date w (str_strip w c4) = Return d ->
  (end_date < d)%Z ->
  forall t, task_of w end_date idx h <> Return (Some t).
Proof.
  intros H4 Hd Hlt t Ht.
  destruct (task_of_Some _ _ _ Ht)
    as (c0 & c3 & c4' & units & d' & _ & _ & _ & H4' & Hd' & Hle & _).
  rewrite H4 in H4'. injection H4' as <-.
  rewrite Hd in Hd'. injection Hd' as <-. lia.
Qed.

Lemma tasks_loop_app l1 :
  forall l2 idx tasks,
  tasks_loop w end_date idx (l1 ++ l2) tasks =
    tasks_loop w end_date (idx + List.length l1) l2
      (tasks_loop w end_date idx l1 tasks).
Proof.
  induction l1 as [| h l1 IH]; intros l2 idx tasks; cbn [tasks_loop app List.length].
  - rewrite Nat.add_0_r. reflexivity.
  - replace (idx + S (List.length l1))%nat with (S idx + List.length l1)%nat by lia.
    destruct (task_of w end_date idx h) as [[t |] | e]; apply IH.
Qed.

Lemma tasks_loop_In l :
  forall idx tasks t,
  In t (tasks_loop w end_date idx l tasks) ->
  In t tasks \/
  exists k h, nth_error l k = Some h /\
              task_of w end_date (idx + k) h = Return (Some t).
Proof.
  induction l as [| h l IH]; intros idx tasks t Hin; cbn [tasks_loop] in Hin.
  - left. exact Hin.
  - assert (Hshift : forall acc,
      In t (tasks_loop w end_date (S idx) l acc) ->
      In t acc \/
      exists k h', nth_error (h :: l) k = Some h' /\
                   task_of w end_date (idx + k) h' = Return (Some t)).
    { intros acc Hacc. destruct (IH _ _ _ Hacc) as [Ht | (k & h' & Hk & Htask)].
      - left. exact Ht.
      - right. exists (S k), h'. split; [exact Hk |].
        replace (idx + S k)%nat with (S idx + k)%nat by lia. exact Htask. }
    destruct (task_of w end_date idx h) as [[t0 |] | e] eqn:Htask.
    + destruct (Hshift _ Hin) as [Ht | Hex]; [| right; exact Hex].
      apply in_app_or in Ht. destruct Ht as [Ht | [<- | []]].
      * left. exact Ht.
      * right. exists 0%nat, h. rewrite Nat.add_0_r. split; [reflexivity | exact Htask].
    + apply Hshift. exact Hin.
    + apply Hshift. exact Hin.
Qed.

End Tasks.

(** C9.  The chart of an empty store is empty.  For any store the chart is
    computed from the tasks alone, every task belongs to a holding whose
    purchase date is not after now, and a holding whose purchase date is
    after now gets no task: the tasks are those of the holdings before it
    followed by those of the holdings after it. *)
Theorem graph_excludes_future w timeframe :
  (forall s, portfolio_holdings s = [] ->
     get_portfolio_data_for_graph w timeframe s = [])
  /\ (forall s h hs, portfolio_holdings s = h :: hs ->
        get_portfolio_data_for_graph w timeframe s =
          series_of_tasks w timeframe (tasks_loop w (now w) 0 (h :: hs) []))
  /\ (forall holdings idx symbol units d,
        In (idx, symbol, units, d) (tasks_loop w (now w) 0 holdings []) ->
        (d <= now w)%Z /\
        exists h c4, nth_error holdings idx = Some h /\
                     getitem h 4 = Return c4 /\
                     parse_purchase_date w (str_strip w c4) = Return d)
  /\ (forall before h after c4 d,
        getitem h 4 = Return c4 ->
        parse_purchase_date w (str_strip w c4) = Return d ->
        (now w < d)%Z ->
        tasks_loop w (now w) 0 (before ++ h :: after) [] =
          tasks_loop w (now w) (S (List.length before)) after
            (tasks_loop w (now w) 0 before [])
        /\ forall t, In t (tasks_loop w (now w) 0 (before ++ h :: after) []) ->
                     fst (fst (fst t)) <> List.length before).
Proof.
  split; [| split; [| split]].
  - intros s H. unfold get_portfolio_data_for_graph. rewrite H. reflexivity.
  - intros s h hs H. unfold get_portfolio_data_for_graph. rewrite H. reflexivity.
  - intros holdings idx symbol units d Hin.
    destruct (tasks_loop_In _ _ _ _ _ _ Hin) as [[] | (k & h & Hk & Htask)].
    destruct (task_of_Some _ _ _ _ _ Htask)
      as (c0 & c3 & c4 & u & d' & _ & _ & _ & H4 & Hd & Hle & Heq).
    injection Heq as <- _ _ <-. cbn in *.
    split; [exact Hle |]. exists h, c4. auto.
  - intros before h after c4 d H4 Hd Hlt.
    assert (Hskip : tasks_loop w (now w) 0 (before ++ h :: after) [] =
              tasks_loop w (now w) (S (List.length before)) after
                (tasks_loop w (now w) 0 before [])).
    { rewrite tasks_loop_app. cbn [tasks_loop].
      change (0 + List.length before)%nat with (List.length before).
      pose proof (task_of_future w (now w) (List.length before) h c4 d H4 Hd Hlt)
        as Hno.
      destruct (task_of w (now w) (List.length before) h) as [[t |] | e];
        [exfalso; exact (Hno t eq_refl) | reflexivity | reflexivity]. }
    split; [exact Hskip |].
    intros t Hin Hidx.
    destruct (tasks_loop_In _ _ _ _ _ _ Hin) as [[] | (k & h' & Hk & Htask)].
    destruct (task_of_Some _ _ _ _ _ Htask)
      as (c0 & c3 & c4' & u & d' & _ & _ & _ & H4' & Hd' & Hle & Heq).
    subst t. cbn in Hidx. subst k.
    rewrite nth_error_app2 in Hk by lia.
    rewrite Nat.sub_diag in Hk. injection Hk as <-.
    rewrite H4 in H4'. injection H4' as <-.
    rewrite Hd in Hd'. injection Hd' as <-. lia.
Qed.

Lemma graph_excludes_future_witness :
  tasks_loop desktop (now desktop) 0 [row_2023; row_2031; row_2023] [] =
    [(0%nat, "AAPL"%string, 10%float, days 19358);
     (2%nat, "AAPL"%string, 10%float, days 19358)].
Proof.
  etransitivity.
  - exact (proj1 (proj2 (proj2 (proj2 (graph_excludes_future desktop "1mo")))
                    [row_2023] row_2031 [row_2023] (CStr "2031-01-01")
                    (days 22280) eq_refl eq_refl
                    ltac:(vm_compute; reflexivity))).
  - vm_compute. reflexivity.
Defined.

(* ================================================================== *)
(** * Further properties *)

(** ** What a piece of code carries along *)

Lemma maintains_ret {A} P (a : A) : maintains P (ret a).
Proof. intros s H. exact H. Qed.

Lemma maintains_raise {A} P e : maintains P (@raise A e).
Proof. intros s H. exact H. Qed.

Lemma maintains_lift {A} P (o : outcome A) : maintains P (lift o).
Proof. intros s H. exact H. Qed.

Lemma maintains_gets {A} P (f : invest_mate -> A) : maintains P (gets f).
Proof. intros s H. exact H. Qed.

Lemma maintains_modify (P : invest_mate -> Prop) f :
  (forall s, P s -> P (f s)) -> maintains P (modify f).
Proof. intros H s HP. apply H. exact HP. Qed.

Lemma maintains_bind {A B} P (c : M A) (k : A -> M B) :
  maintains P c -> (forall a, maintains P (k a)) -> maintains P (bind c k).
Proof.
  intros Hc Hk s HP. unfold bind. specialize (Hc s HP).
  destruct (c s) as [[a | e] s1]; cbn in *.
  - exact (Hk a s1 Hc).
  - exact Hc.
Qed.

Lemma maintains_try_except {A} P (c : M A) h :
  maintains P c -> (forall e, maintains P (h e)) -> maintains P (try_except c h).
Proof.
  intros Hc Hh s HP. unfold try_except. specialize (Hc s HP).
  destruct (c s) as [[a | e] s1]; cbn in *.
  - exact Hc.
  - exact (Hh e s1 Hc).
Qed.

Lemma maintains_for_each {A} P (l : list A) body :
  (forall x, maintains P (body x)) -> maintains P (for_each l body).
Proof.
  intros H. induction l as [| x l IH]; cbn [for_each].
  - apply maintains_ret.
  - apply maintains_bind; [apply H | intros _; exact IH].
Qed.

(** [known] closes the calls whose bodies must stay folded. *)
Ltac carry known :=
  repeat first
    [ known
    | apply maintains_ret | apply maintains_raise | apply maintains_lift
    | apply maintains_gets
    | apply maintains_modify; intros ? HP; exact HP
    | apply maintains_bind; [| intros ?]
    | apply maintains_try_except; [| intros ?]
    | apply maintains_for_each; intros ?
    | match goal with
      | |- maintains _ (if ?b then _ else _) => destruct b
      | |- maintains _ (match ?x with _ => _ end) => destruct x
      end ].

Lemma maintains_symbols_loop w P :
  (forall symbol lots edited, maintains P (symbol_body w symbol lots edited)) ->
  (forall d, maintains P (messagebox d)) ->
  forall grouped edited, maintains P (symbols_loop w grouped edited).
Proof.
  intros Hbody Hbox grouped.
  induction grouped as [| [symbol lots] rest IH]; intros edited;
    cbn [symbols_loop].
  - apply maintains_ret.
  - apply maintains_bind; [| intros a; apply IH].
    apply maintains_try_except; [apply Hbody |].
    intros e. apply maintains_bind; [apply Hbox | intros _; apply maintains_ret].
Qed.

Lemma maintains_convert_currency w P amount :
  maintains P (update_currency w) -> maintains P (convert_currency w amount).
Proof. intros H. unfold convert_currency. carry ltac:(apply H). Qed.

(** A predicate that no assignment of an aggregation pass disturbs is
    carried by the pass once [convert_currency] carries it. *)
Section Carried.
Variable w : world.
Variable P : invest_mate -> Prop.
Hypothesis P_holdings : forall v s, P s -> P (set_portfolio_holdings v s).
Hypothesis P_positions : forall v s, P s -> P (set_total_portfolio_holdings v s).
Hypothesis P_profit_loss : forall v s, P s -> P (set_total_profit_loss v s).
Hypothesis P_value : forall v s, P s -> P (set_total_portfolio_value v s).
Hypothesis P_percent : forall v s, P s -> P (set_total_profit_loss_percent v s).
Hypothesis P_change : forall v s, P s -> P (set_total_portfolio_change v s).
Hypothesis P_daily : forall v s, P s -> P (set_daily_change v s).
Hypothesis P_daily_percent : forall v s, P s -> P (set_daily_change_percent v s).
Hypothesis P_box : forall d, maintains P (messagebox d).
Hypothesis P_convert : forall amount, maintains P (convert_currency w amount).

Ltac assigned :=
  apply maintains_modify; intros ? HP;
  first [ apply P_holdings | apply P_positions | apply P_profit_loss
        | apply P_value | apply P_percent | apply P_change | apply P_daily
        | apply P_daily_percent ]; exact HP.

Lemma carried_messagebox d : maintains P (messagebox d).
Proof. apply P_box. Qed.

Lemma carried_get_current_price symbol : maintains P (get_current_price w symbol).
Proof. unfold get_current_price. carry ltac:(apply carried_messagebox). Qed.

Lemma carried_symbol_body symbol lots edited :
  maintains P (symbol_body w symbol lots edited).
Proof.
  unfold symbol_body, format_converted.
  carry ltac:(first [ apply carried_get_current_price
                    | apply P_convert | assigned ]).
Qed.

Lemma carried_calculate_daily_change : maintains P (calculate_daily_change w).
Proof.
  unfold calculate_daily_change, daily_change_step. carry ltac:(assigned).
Qed.

Lemma carried_update_portfolio text_values :
  maintains P (update_portfolio w text_values).
Proof.
  unfold update_portfolio, group_portfolio_holdings.
  carry ltac:(first [ apply maintains_symbols_loop;
                        [ apply carried_symbol_body | apply carried_messagebox ]
                    | apply carried_calculate_daily_change | assigned ]).
Qed.

End Carried.

(** ** The timestamp of the exchange rate *)

Lemma timestamp_update_currency w t :
  maintains (fun s => last_updated_currency_date s = t) (update_currency w).
Proof. unfold update_currency. carry ltac:(fail). Qed.

Lemma timestamp_update_portfolio w t text_values :
  maintains (fun s => last_updated_currency_date s = t)
    (update_portfolio w text_values).
Proof.
  apply carried_update_portfolio; try (intros; assumption).
  - intros d s H. exact H.
  - intros amount. apply maintains_convert_currency, timestamp_update_currency.
Qed.

Lemma timestamp_convert_currency w t amount :
  maintains (fun s => last_updated_currency_date s = t)
    (convert_currency w amount).
Proof.
  apply maintains_convert_currency, timestamp_update_currency.
Qed.


(** X1.  Nothing the application does after [__init__] assigns
    [last_updated_currency_date], the timestamp that the staleness test of
    [convert_currency] reads: a refresh, a conversion, an aggregation pass,
    a change of currency, an export, an import and the form all leave it
    as it was. *)
Theorem staleness_timestamp_never_changes w isalnum t :
  maintains (fun s => last_updated_currency_date s = t) (update_currency w)
  /\ (forall amount,
        maintains (fun s => last_updated_currency_date s = t)
          (convert_currency w amount))
  /\ (forall text_values,
        maintains (fun s => last_updated_currency_date s = t)
          (update_portfolio w text_values))
  /\ (forall choice,
        maintains (fun s => last_updated_currency_date s = t)
          (on_currency_selected w choice))
  /\ (forall file_path,
        maintains (fun s => last_updated_currency_date s = t)
          (save_portfolio w file_path))
  /\ (forall file_path,
        maintains (fun s => last_updated_currency_date s = t)
          (load_portfolio w file_path))
  /\ (forall text_values,
        maintains (fun s => last_updated_currency_date s = t)
          (add_investment w isalnum text_values)).
Proof.
  repeat split.
  - apply timestamp_update_currency.
  - intros amount. apply timestamp_convert_currency.
  - intros text_values. apply timestamp_update_portfolio.
  - intros choice. unfold on_currency_selected.
    carry ltac:(first [ apply timestamp_update_currency
                      | apply timestamp_update_portfolio ]).
  - intros file_path. unfold save_portfolio. carry ltac:(fail).
  - intros file_path. unfold load_portfolio, read_file.
    carry ltac:(apply timestamp_update_portfolio).
  - intros text_values. unfold add_investment, check_properly_formatted.
    carry ltac:(apply timestamp_update_portfolio).
Qed.

Lemma staleness_timestamp_never_changes_witness :
  last_updated_currency_date (snd (update_portfolio online form_aapl_100 fresh)) = t0.
Proof.
  apply (proj1 (proj2 (proj2 (staleness_timestamp_never_changes online
                                ascii_alnum t0)))
           form_aapl_100 fresh).
  reflexivity.
Defined.

Lemma update_currency_returns w s :
  exists s', update_currency w s = (Return tt, s').
Proof.
  destruct (fx_rates w (currency s)) as [r | e] eqn:E.
  - eexists. apply (update_currency_success w s r E).
  - eexists. apply (update_currency_failure w s e E).
Qed.

Lemma currency_update_currency w c :
  maintains (fun s => currency s = c) (update_currency w).
Proof. unfold update_currency. carry ltac:(fail). Qed.

(** X2.  A successful refresh does not make the rate fresh.  For a
    currency other than USD, whatever an earlier conversion did, a
    conversion at a time that the test of line 107 finds more than 600
    seconds after [last_updated_currency_date] returns [None]. *)
Theorem refresh_never_freshens w w' s amount amount' :
  currency s <> "USD"%string ->
  (600 < timedelta_seconds (now w' - last_updated_currency_date s))%Z ->
  fst (convert_currency w' amount' (snd (convert_currency w amount s))) =
    Return None.
Proof.
  intros Hcur Hstale.
  pose proof (timestamp_convert_currency w (last_updated_currency_date s)
                amount s eq_refl) as Ht.
  pose proof (maintains_convert_currency w (fun s0 => currency s0 = currency s)
                amount (currency_update_currency w (currency s)) s eq_refl) as Hc.
  cbn beta in Ht, Hc.
  destruct (convert_currency w amount s) as [r s1]. cbn [snd] in *.
  unfold convert_currency, bind, gets, ret. cbn.
  rewrite Hc.
  destruct (String.eqb_spec (currency s) "USD") as [E | _]; [contradiction |].
  cbn. rewrite Ht.
  destruct (Z.ltb_spec 600 (timedelta_seconds (now w' - last_updated_currency_date s)))
    as [_ | Hle]; [| lia].
  destruct (update_currency_returns w' s1) as [s2 ->]. reflexivity.
Qed.

Lemma refresh_never_freshens_witness :
  fst (convert_currency stale_online 100
         (snd (convert_currency stale_online 100 (started_with "EUR" 2)))) =
    Return None.
Proof.
  apply (refresh_never_freshens stale_online stale_online
           (started_with "EUR" 2) 100 100).
  - discriminate.
  - vm_compute. reflexivity.
Defined.

(** ** A change of currency that cannot fetch its rate *)

Section FailedSwitch.
Variable w : world.
Variable choice : string.
Variable e : exn.
Hypothesis provider_fails : fx_rates w choice = Raise e.

Lemma switched_update_currency r t :
  maintains (fun s => currency s = choice /\ currency_rate s = r /\
                      last_updated_currency_date s = t)
    (update_currency w).
Proof.
  intros s (Hc & Hr & Ht).
  rewrite (update_currency_failure w s e) by (rewrite Hc; exact provider_fails).
  cbn. auto.
Qed.

Lemma switched_update_portfolio r t text_values :
  maintains (fun s => currency s = choice /\ currency_rate s = r /\
                      last_updated_currency_date s = t)
    (update_portfolio w text_values).
Proof.
  apply carried_update_portfolio; try (intros; assumption).
  - intros d s H. exact H.
  - intros amount. apply maintains_convert_currency, switched_update_currency.
Qed.

Lemma shown_update_currency pre :
  maintains (fun s => exists rest, shown s = pre ++ rest) (update_currency w).
Proof.
  intros s [rest Hs].
  destruct (fx_rates w (currency s)) as [rate | e'] eqn:E.
  - rewrite (update_currency_success w s rate E). exists rest. exact Hs.
  - rewrite (update_currency_failure w s e' E). cbn. rewrite Hs.
    eexists. rewrite <- app_assoc. reflexivity.
Qed.

Lemma shown_messagebox pre d :
  maintains (fun s => exists rest, shown s = pre ++ rest) (messagebox d).
Proof.
  intros s [rest Hs]. cbn. rewrite Hs. eexists. rewrite <- app_assoc.
  reflexivity.
Qed.

Lemma shown_update_portfolio pre text_values :
  maintains (fun s => exists rest, shown s = pre ++ rest)
    (update_portfolio w text_values).
Proof.
  apply carried_update_portfolio; try (intros; assumption).
  - apply shown_messagebox.
  - intros amount. apply maintains_convert_currency, shown_update_currency.
Qed.

End FailedSwitch.

(** X3.  When the FX provider fails for the currency picked in the
    selector, [on_currency_selected] still switches to it: the error box is
    shown once, the cached rate stays what it was for the previous
    currency (0 after start-up), and for a currency other than USD every
    conversion that the test of line 107 finds within 600 seconds of
    [last_updated_currency_date] then returns the amount times that old
    rate, without any further notice. *)
Theorem failed_currency_switch w choice s e :
  fx_rates w choice = Raise e ->
  currency (snd (on_currency_selected w choice s)) = choice
  /\ currency_rate (snd (on_currency_selected w choice s)) = currency_rate s
  /\ (exists rest,
        shown (snd (on_currency_selected w choice s)) =
          (shown s ++
           [showerror "Currency Conversion Error" (ErrorFetchingRate e)]) ++ rest)
  /\ (choice <> "USD"%string ->
      forall w' amount,
        (timedelta_seconds (now w' - last_updated_currency_date s) <= 600)%Z ->
        convert_currency w' amount (snd (on_currency_selected w choice s)) =
          (Return (Some (amount * currency_rate s)%float),
           snd (on_currency_selected w choice s))).
Proof.
  intros Hfx.
  assert (Hrun : on_currency_selected w choice s =
            update_portfolio w []
              (set_shown (shown s ++
                 [showerror "Currency Conversion Error" (ErrorFetchingRate e)])
                 (set_currency choice s))).
  { unfold on_currency_selected, bind, modify.
    rewrite (update_currency_failure w (set_currency choice s) e Hfx).
    reflexivity. }
  rewrite Hrun.
  match goal with |- context [update_portfolio w [] ?s0] => set (s1 := s0) end.
  destruct (switched_update_portfolio w choice e Hfx (currency_rate s)
              (last_updated_currency_date s) [] s1) as (Hc & Hr & Ht);
    [repeat split |].
  pose proof (shown_update_portfolio w
                (shown s ++
                 [showerror "Currency Conversion Error" (ErrorFetchingRate e)])
                [] s1 (ex_intro _ [] (eq_sym (app_nil_r _)))) as Hshown.
  cbn beta in Hshown.
  destruct (update_portfolio w [] s1) as [r s2]. cbn [snd] in *.
  repeat split; try assumption.
  intros Hne w' amount Hfresh.
  unfold convert_currency, bind, gets, ret. cbn. rewrite Hc.
  destruct (String.eqb_spec choice "USD") as [E | _]; [contradiction |].
  cbn. rewrite Ht.
  destruct (Z.ltb_spec 600 (timedelta_seconds (now w' - last_updated_currency_date s)))
    as [Hlt | _]; [lia |].
  cbn. rewrite Hr. reflexivity.
Qed.

Lemma failed_currency_switch_witness :
  convert_currency fx_down 100
    (snd (on_currency_selected fx_down "EUR" fresh)) =
    (Return (Some (100 * 0)%float),
     snd (on_currency_selected fx_down "EUR" fresh)).
Proof.
  apply (proj2 (proj2 (proj2 (failed_currency_switch fx_down "EUR" fresh
                                ConnectionError eq_refl)))).
  - discriminate.
  - vm_compute. discriminate.
Defined.

(** ** Grouping by symbol *)

Lemma dict_get_app_str {V} (d : list (cell * V)) a b v :
  dict_get (CStr a) (d ++ [(CStr b, v)]) =
    match dict_get (CStr a) d with
    | Some x => Some x
    | None => if String.eqb b a then Some v else None
    end.
Proof.
  induction d as [| [k x] d IH]; cbn.
  - reflexivity.
  - destruct (cell_eqb k (CStr a)); [reflexivity | exact IH].
Qed.

Lemma dict_get_set_str {V} (d : list (cell * V)) a b v :
  string_keys d ->
  dict_get (CStr a) (dict_set (CStr b) v d) =
    if String.eqb b a then Some v else dict_get (CStr a) d.
Proof.
  induction 1 as [| [k x] d [c Hk] _ IH]; cbn in *.
  - reflexivity.
  - subst k. cbn.
    destruct (String.eqb_spec c b) as [Ecb | Hcb]; cbn.
    + subst c. destruct (String.eqb b a); reflexivity.
    + rewrite IH. destruct (String.eqb_spec c a) as [Eca | Hca];
        [| reflexivity].
      subst c. destruct (String.eqb_spec b a) as [Eba | _];
        [subst b; contradiction | reflexivity].
Qed.

Lemma dict_get_keys {V} (d : list (cell * V)) k :
  dict_get k d = None -> string_keys d ->
  forall symbol, k = CStr symbol -> ~ In k (map fst d).
Proof.
  intros Hget Hkeys symbol ->. induction Hkeys as [| [k x] d [c Hk] _ IH];
    cbn in *.
  - tauto.
  - subst k. cbn in Hget.
    destruct (String.eqb_spec c symbol) as [Ec | Hne]; [discriminate |].
    intros [E | Hin]; [injection E as E; contradiction | exact (IH Hget Hin)].
Qed.

Lemma dict_set_keys {V} (d : list (cell * V)) k v x :
  dict_get k d = Some x -> map fst (dict_set k v d) = map fst d.
Proof.
  induction d as [| [k' x'] d IH]; cbn; [discriminate |].
  destruct (cell_eqb k' k); cbn; [reflexivity |].
  intros H. rewrite (IH H). reflexivity.
Qed.

Lemma dict_set_string_keys {V} (d : list (cell * V)) symbol v :
  string_keys d -> string_keys (dict_set (CStr symbol) v d).
Proof.
  induction 1 as [| [k x] d Hk Hd IH]; cbn.
  - constructor; [exists symbol; reflexivity | constructor].
  - destruct (cell_eqb k (CStr symbol)); constructor;
      first [exact Hk | exact Hd | exact IH].
Qed.

Lemma group_loop_merges holdings :
  string_symbols holdings ->
  forall grouped,
  string_keys grouped -> NoDup (map fst grouped) ->
  exists grouped',
    group_loop holdings grouped = Return grouped' /\
    string_keys grouped' /\ NoDup (map fst grouped') /\
    forall symbol,
      dict_get (CStr symbol) grouped' =
        merged (dict_get (CStr symbol) grouped) (lots_of (CStr symbol) holdings).
Proof.
  induction 1 as [| h holdings (b & rest & ->) _ IH]; intros grouped Hkeys Hnodup.
  - exists grouped. repeat split; assumption.
  - cbn [group_loop getitem nth_error obind tl].
    assert (Hstep : forall a,
      lots_of (CStr a) ((CStr b :: rest) :: holdings) =
        (if String.eqb b a then [rest] else []) ++ lots_of (CStr a) holdings).
    { intros a. unfold lots_of. cbn.
      destruct (String.eqb b a); reflexivity. }
    destruct (dict_get (CStr b) grouped) as [lots |] eqn:Hget.
    + destruct (IH (dict_set (CStr b) (lots ++ [rest]) grouped))
        as (g' & Hrun & Hk' & Hn' & Hlook).
      * apply dict_set_string_keys. exact Hkeys.
      * rewrite (dict_set_keys _ _ _ _ Hget). exact Hnodup.
      * exists g'. repeat split; try assumption.
        intros a. rewrite Hlook, (dict_get_set_str _ _ _ _ Hkeys), (Hstep a).
        destruct (String.eqb_spec b a) as [<- | _]; cbn [app].
        -- rewrite Hget. unfold merged.
           destruct (lots_of (CStr b) holdings); cbn.
           ++ reflexivity.
           ++ rewrite <- app_assoc. reflexivity.
        -- reflexivity.
    + destruct (IH (grouped ++ [(CStr b, [rest])]))
        as (g' & Hrun & Hk' & Hn' & Hlook).
      * apply Forall_app. split; [exact Hkeys |].
        constructor; [exists b; reflexivity | constructor].
      * rewrite map_app. cbn. apply NoDup_app; [exact Hnodup | | ].
        -- constructor; [intros [] | constructor].
        -- intros k Hin [<- | []].
           exact (dict_get_keys _ _ Hget Hkeys b eq_refl Hin).
      * exists g'. repeat split; try assumption.
        intros a. rewrite Hlook, dict_get_app_str, (Hstep a).
        destruct (String.eqb_spec b a) as [<- | _]; cbn [app].
        -- rewrite Hget. unfold merged.
           destruct (lots_of (CStr b) holdings); reflexivity.
        -- destruct (dict_get (CStr a) grouped); reflexivity.
Qed.

(** X4.  Holdings whose symbols are strings are grouped without error,
    each symbol once: a symbol that no holding has is not a key, and the
    entry of a symbol that some holding has is the list of its holdings'
    remaining cells, in the order in which they were added. *)
Theorem group_portfolio_holdings_by_symbol s :
  string_symbols (portfolio_holdings s) ->
  exists grouped,
    group_portfolio_holdings s = (Return grouped, s) /\
    NoDup (map fst grouped) /\
    forall symbol,
      dict_get (CStr symbol) grouped =
        match lots_of (CStr symbol) (portfolio_holdings s) with
        | [] => None
        | lots => Some lots
        end.
Proof.
  intros H.
  destruct (group_loop_merges _ H [] (Forall_nil _) (NoDup_nil _))
    as (g & Hrun & _ & Hn & Hlook).
  exists g. unfold group_portfolio_holdings, bind, gets, lift. cbn.
  rewrite Hrun. repeat split; [exact Hn |].
  intros symbol. rewrite Hlook. cbn.
  destruct (lots_of (CStr symbol) (portfolio_holdings s)); reflexivity.
Qed.

Lemma group_portfolio_holdings_by_symbol_witness :
  exists grouped,
    group_portfolio_holdings three_rows = (Return grouped, three_rows) /\
    NoDup (map fst grouped) /\
    forall symbol,
      dict_get (CStr symbol) grouped =
        match lots_of (CStr symbol) (portfolio_holdings three_rows) with
        | [] => None
        | lots => Some lots
        end.
Proof.
  apply (group_portfolio_holdings_by_symbol three_rows).
  repeat constructor; eexists; eexists; reflexivity.
Defined.

(** ** Adding a holding *)

Lemma update_portfolio_after_append w text_values s :
  text_values <> [] ->
  update_portfolio w text_values s =
    update_portfolio w []
      (set_portfolio_holdings
         (portfolio_holdings s ++ [new_holding text_values]) s).
Proof.
  intros H. destruct text_values as [| v vs]; [contradiction |].
  reflexivity.
Qed.

(** X5.  A pass that is given the values of the form appends one row to
    the holdings and then aggregates as a pass without values does: the
    earlier holdings keep their places, the new row is last (with the
    category General after five values), and it stays there whether the
    rest of the pass returns or raises. *)
Theorem update_portfolio_appends w text_values s :
  text_values <> [] ->
  update_portfolio w text_values s =
    update_portfolio w []
      (set_portfolio_holdings
         (portfolio_holdings s ++ [new_holding text_values]) s)
  /\ portfolio_holdings (snd (update_portfolio w text_values s)) =
       portfolio_holdings s ++ [new_holding text_values].
Proof.
  intros H. split; [apply update_portfolio_after_append; exact H |].
  rewrite (update_portfolio_after_append w text_values s H).
  rewrite (keeps_update_portfolio_nil w). reflexivity.
Qed.

Lemma update_portfolio_appends_witness :
  portfolio_holdings (snd (update_portfolio zzzz_down form_aapl_120 holding_aapl)) =
    portfolio_holdings holding_aapl ++ [new_holding form_aapl_120].
Proof.
  apply (proj2 (update_portfolio_appends zzzz_down form_aapl_120 holding_aapl
                  ltac:(discriminate))).
Defined.

(** ** The form *)

Lemma eqb_append_empty a b :
  String.eqb (a ++ b) "" = String.eqb a "" && String.eqb b "".
Proof. destruct a; reflexivity. Qed.

Lemma check_field_spec w isalnum i value name ty :
  getitem input_list i = Return (name, ty) ->
  exists piece,
    check_field w isalnum i value = Return piece /\
    String.eqb piece "" = field_ok w isalnum ty value.
Proof.
  intros Hget. unfold check_field, field_ok. rewrite Hget. cbn [obind fst snd].
  destruct (String.eqb value ""); cbn [negb andb].
  - eexists. split; reflexivity.
  - destruct ty.
    + destruct (isalnum value); eexists; split; reflexivity.
    + destruct (float_of_string w value); eexists; split; reflexivity.
    + cbn [first_format].
      destruct (strptime w value "%d-%m-%Y");
        [eexists; split; reflexivity |].
      destruct (strptime w value "%d/%m/%Y");
        [eexists; split; reflexivity |].
      destruct (strptime w value "%Y-%m-%d"); eexists; split; reflexivity.
Qed.

Lemma check_loop_five w isalnum a b c d e :
  exists error_string,
    check_loop w isalnum 0 [a; b; c; d; e] "" = Return error_string /\
    String.eqb error_string "" = form_ok w isalnum [a; b; c; d; e].
Proof.
  destruct (check_field_spec w isalnum 0 a "Symbol" text_field eq_refl)
    as (p0 & H0 & E0).
  destruct (check_field_spec w isalnum 1 b "Purchase Price" number_field eq_refl)
    as (p1 & H1 & E1).
  destruct (check_field_spec w isalnum 2 c "Fees" number_field eq_refl)
    as (p2 & H2 & E2).
  destruct (check_field_spec w isalnum 3 d "Units" number_field eq_refl)
    as (p3 & H3 & E3).
  destruct (check_field_spec w isalnum 4 e "Date Purchased (DD-MM-YYYY)"
              date_field eq_refl)
    as (p4 & H4 & E4).
  eexists. cbn [check_loop]. rewrite H0, H1, H2, H3, H4. cbn [obind].
  split; [reflexivity |].
  rewrite !eqb_append_empty, E0, E1, E2, E3, E4. reflexivity.
Qed.

Lemma check_properly_formatted_decides_aux w isalnum a b c d e s :
  (form_ok w isalnum [a; b; c; d; e] = true ->
   check_properly_formatted w isalnum [a; b; c; d; e] s = (Return true, s))
  /\ (form_ok w isalnum [a; b; c; d; e] = false ->
      exists message,
        check_properly_formatted w isalnum [a; b; c; d; e] s =
          (Return false,
           set_shown (shown s ++ [showerror "Input Error" (Lit message)]) s)).
Proof.
  destruct (check_loop_five w isalnum a b c d e) as (err & Hrun & Herr).
  unfold check_properly_formatted, bind, lift. rewrite Hrun, Herr.
  split; intros ->; cbn [negb].
  - reflexivity.
  - eexists. reflexivity.
Qed.

(** X6.  On the five values of the form, [check_properly_formatted]
    answers [True] and shows nothing exactly when every input is filled in
    and reads as its type (the symbol alphanumeric, price, fees and units
    floats, the date in one of the three formats); otherwise it answers
    [False] after one "Input Error" box.  It changes nothing else. *)
Theorem check_properly_formatted_decides w isalnum a b c d e s :
  (form_ok w isalnum [a; b; c; d; e] = true ->
   check_properly_formatted w isalnum [a; b; c; d; e] s = (Return true, s))
  /\ (form_ok w isalnum [a; b; c; d; e] = false ->
      exists message,
        check_properly_formatted w isalnum [a; b; c; d; e] s =
          (Return false,
           set_shown (shown s ++ [showerror "Input Error" (Lit message)]) s)).
Proof. apply check_properly_formatted_decides_aux. Qed.

Lemma check_properly_formatted_decides_witness :
  exists message,
    check_properly_formatted online ascii_alnum form_bad_price fresh =
      (Return false,
       set_shown (shown fresh ++ [showerror "Input Error" (Lit message)]) fresh).
Proof.
  apply (proj2 (check_properly_formatted_decides online ascii_alnum
                  "AAPL" "a lot" "1" "10" "2023-01-01" fresh)).
  vm_compute. reflexivity.
Defined.

(** X7.  [add_investment] on values that the check refuses leaves the
    holdings and every total as they were: only the "Input Error" box is
    added.  On values that the check accepts it runs the pass, which
    appends the row with the category General; the price, fees and units
    of that row are floats, so the loop over the lots reads it without
    error. *)
Theorem add_investment_validates w isalnum a b c d e s :
  (form_ok w isalnum [a; b; c; d; e] = false ->
   exists message,
     add_investment w isalnum [a; b; c; d; e] s =
       (Return tt,
        set_shown (shown s ++ [showerror "Input Error" (Lit message)]) s))
  /\ (form_ok w isalnum [a; b; c; d; e] = true ->
      add_investment w isalnum [a; b; c; d; e] s =
        update_portfolio w [a; b; c; d; e] s
      /\ portfolio_holdings (snd (add_investment w isalnum [a; b; c; d; e] s)) =
           portfolio_holdings s ++
           [[CStr a; CStr b; CStr c; CStr d; CStr e; CStr "General"]]
      /\ exists l,
           lot_of_row w [CStr b; CStr c; CStr d; CStr e; CStr "General"] =
             Return l).
Proof.
  destruct (check_properly_formatted_decides_aux w isalnum a b c d e s)
    as [Hyes Hno].
  split.
  - intros Hbad. destruct (Hno Hbad) as (message & Hrun).
    exists message. unfold add_investment, bind. rewrite Hrun. reflexivity.
  - intros Hok.
    assert (Hrun : add_investment w isalnum [a; b; c; d; e] s =
                     update_portfolio w [a; b; c; d; e] s).
    { unfold add_investment, bind. rewrite (Hyes Hok). reflexivity. }
    split; [exact Hrun |]. split.
    + rewrite Hrun.
      rewrite (update_portfolio_after_append w [a; b; c; d; e] s)
        by discriminate.
      rewrite (keeps_update_portfolio_nil w). reflexivity.
    + unfold form_ok, field_ok in Hok.
      repeat (apply andb_prop in Hok; destruct Hok as [Hok ?]).
      unfold lot_of_row. cbn [getitem nth_error obind py_float].
      destruct (float_of_string w b); [| rewrite andb_false_r in *; discriminate].
      destruct (float_of_string w c); [| rewrite andb_false_r in *; discriminate].
      destruct (float_of_string w d); [| rewrite andb_false_r in *; discriminate].
      cbn. eexists. reflexivity.
Qed.

Lemma add_investment_validates_witness :
  portfolio_holdings (snd (add_investment online ascii_alnum form_aapl_100 fresh)) =
    [[CStr "AAPL"; CStr "100"; CStr "1"; CStr "10"; CStr "2023-01-01";
      CStr "General"]].
Proof.
  apply (proj1 (proj2 (proj2 (add_investment_validates online ascii_alnum
                                "AAPL" "100" "1" "10" "2023-01-01" fresh)
                         ltac:(vm_compute; reflexivity)))).
Defined.

(** ** A position without a daily bar *)

Lemma for_each_app {A} (l1 l2 : list A) body s :
  for_each (l1 ++ l2) body s =
    bind (for_each l1 body) (fun _ => for_each l2 body) s.
Proof.
  revert s. induction l1 as [| x l1 IH]; intros s; cbn [for_each app].
  - reflexivity.
  - unfold bind in *. destruct (body x s) as [[[] | e] s1].
    + apply IH.
    + reflexivity.
Qed.

Lemma last_of_no_bar w symbol column :
  last_bar w symbol = None -> exists e, last_of w column symbol = Raise e.
Proof.
  unfold last_bar, last_of.
  destruct (ticker_history w symbol) as [bars | e]; cbn.
  - destruct (rev bars); [| discriminate]. intros _. eexists. reflexivity.
  - intros _. eexists. reflexivity.
Qed.

Lemma last_of_returns w symbol column x :
  last_of w column symbol = Return x -> last_bar w symbol <> None.
Proof.
  unfold last_bar, last_of.
  destruct (ticker_history w symbol) as [bars | e]; cbn; [| discriminate].
  destruct (rev bars); [discriminate |]. intros _. discriminate.
Qed.

(** X8.  [calculate_daily_change] has no [try]: at the first position whose
    symbol has no latest daily bar (the feed fails or answers an empty
    table) it raises.  The changes of the positions before it have been
    added by then; the positions after it are not visited. *)
Theorem calculate_daily_change_raises w s before p after bars :
  total_portfolio_holdings s = before ++ p :: after ->
  Forall2 (fun q b => last_bar w (pos_symbol q) = Some b) before bars ->
  last_bar w (pos_symbol p) = None ->
  exists e s',
    calculate_daily_change w s = (Raise e, s') /\
    daily_change s' =
      fold_left PrimFloat.add (map bar_change bars) (daily_change s) /\
    daily_change_percent s' =
      fold_left PrimFloat.add (map bar_change_percent bars)
        (daily_change_percent s).
Proof.
  intros Hpos Hbars Hnone.
  destruct (daily_change_loop w before bars Hbars s)
    as (s1 & Hrun & Hdc & Hdcp & _).
  destruct (last_of_no_bar w (pos_symbol p) Close Hnone) as [e He].
  exists e, s1.
  unfold calculate_daily_change. unfold bind at 1, gets at 1. rewrite Hpos.
  rewrite for_each_app. unfold bind at 1. rewrite Hrun.
  cbn [for_each]. unfold bind at 1.
  unfold daily_change_step, bind, gets, lift. rewrite He.
  repeat split; assumption.
Qed.

Lemma calculate_daily_change_raises_witness :
  exists e s',
    calculate_daily_change zzzz_down two_positions = (Raise e, s') /\
    daily_change s' =
      fold_left PrimFloat.add (map bar_change [{| Open := 149; Close := 150 |}])
        (daily_change two_positions) /\
    daily_change_percent s' =
      fold_left PrimFloat.add
        (map bar_change_percent [{| Open := 149; Close := 150 |}])
        (daily_change_percent two_positions).
Proof.
  apply (calculate_daily_change_raises zzzz_down two_positions
           [a_position AAPL] (a_position ZZZZ) []
           [{| Open := 149; Close := 150 |}]).
  - reflexivity.
  - repeat constructor.
  - reflexivity.
Defined.

Lemma bind_returns {A B} (c : M A) (k : A -> M B) s b s' :
  bind c k s = (Return b, s') ->
  exists a s1, c s = (Return a, s1) /\ k a s1 = (Return b, s').
Proof.
  unfold bind. destruct (c s) as [[a | e] s1]; [| discriminate].
  intros H. exists a, s1. auto.
Qed.

Lemma daily_change_step_returns w p s s' :
  daily_change_step w p s = (Return tt, s') ->
  last_bar w (pos_symbol p) <> None /\
  total_portfolio_holdings s' = total_portfolio_holdings s.
Proof.
  unfold daily_change_step, bind, gets, lift, modify.
  destruct (last_of w Close (pos_symbol p)) as [c |] eqn:Hc; [| discriminate].
  destruct (last_of w Open (pos_symbol p)) as [o |]; [| discriminate].
  intros H. injection H as <-. split; [| reflexivity].
  exact (last_of_returns w _ _ _ Hc).
Qed.

Lemma daily_change_loop_returns w positions :
  forall s s',
  for_each positions (daily_change_step w) s = (Return tt, s') ->
  Forall (fun p => last_bar w (pos_symbol p) <> None) positions /\
  total_portfolio_holdings s' = total_portfolio_holdings s.
Proof.
  induction positions as [| p positions IH]; intros s s' H; cbn [for_each] in H.
  - injection H as <-. split; [constructor | reflexivity].
  - apply bind_returns in H. destruct H as ([] & s1 & Hstep & Hrest).
    destruct (daily_change_step_returns w p s s1 Hstep) as [Hbar Hpos].
    destruct (IH s1 s' Hrest) as [Hall Hpos'].
    split; [constructor; assumption | congruence].
Qed.

(** X9.  An aggregation pass returns only if every position it has built
    has a latest daily bar: a position whose symbol the feed cannot quote
    (which [get_current_price] alone would value at 0) makes the whole
    pass raise out of [update_portfolio]. *)
Theorem update_portfolio_returns_with_bars w text_values s s' :
  update_portfolio w text_values s = (Return tt, s') ->
  Forall (fun p => last_bar w (pos_symbol p) <> None)
    (total_portfolio_holdings s').
Proof.
  unfold update_portfolio. intros H.
  repeat match type of H with
         | bind _ _ _ = _ =>
             apply bind_returns in H; destruct H as (? & ? & _ & H)
         end.
  unfold calculate_daily_change in H.
  apply bind_returns in H. destruct H as (positions & s1 & Hget & H).
  unfold gets in Hget. injection Hget as <- <-.
  destruct (daily_change_loop_returns w _ _ _ H) as [Hall Hpos].
  rewrite Hpos. exact Hall.
Qed.

Lemma update_portfolio_returns_with_bars_witness :
  Forall (fun p => last_bar online (pos_symbol p) <> None)
    (total_portfolio_holdings holding_aapl).
Proof.
  apply (update_portfolio_returns_with_bars online form_aapl_100 fresh).
  vm_compute. reflexivity.
Defined.

(** ** Import and export, case by case *)

Lemma load_portfolio_with_columns w file_path s content df :
  file_path <> ""%string ->
  disk s file_path = Some content ->
  read_csv w content = Return df ->
  (forall col, In col required_columns -> In col (columns df)) ->
  load_portfolio w file_path s =
    match update_portfolio w [] (set_portfolio_holdings (values df) s) with
    | (Return _, s1) =>
        (Return tt,
         set_shown (shown s1 ++
           [showinfo "Load Portfolio" (LoadedFrom file_path)]) s1)
    | (Raise e, s1) =>
        (Return tt,
         set_shown (shown s1 ++
           [showerror "Load Portfolio" (ErrorLoading e)]) s1)
    end.
Proof.
  intros Hpath Hfile Hread Hcols.
  unfold load_portfolio. rewrite (eqb_empty_false _ Hpath).
  unfold try_except, bind at 1. unfold read_file, bind at 1, gets at 1.
  rewrite Hfile. unfold lift at 1. rewrite Hread.
  assert (Hall : forallb (has_column df) required_columns = true).
  { apply forallb_forall. intros col Hin. apply has_column_In. auto. }
  rewrite Hall. cbn [negb].
  unfold bind at 1. unfold modify at 1. unfold bind at 1.
  destruct (update_portfolio w [] (set_portfolio_holdings (values df) s))
    as [[[] | e] s1]; reflexivity.
Qed.

(** X10.  A file that pandas reads as a table with the six column names,
    in whatever order and with whatever other columns, replaces the
    holdings by the rows of the table as they are.  The import then runs a
    pass: if the pass returns, "Portfolio loaded" is shown; if it raises,
    the error box is shown although the holdings stay replaced. *)
Theorem load_portfolio_replaces w file_path s content df :
  file_path <> ""%string ->
  disk s file_path = Some content ->
  read_csv w content = Return df ->
  (forall col, In col required_columns -> In col (columns df)) ->
  portfolio_holdings (snd (load_portfolio w file_path s)) = values df
  /\ (forall s1,
        update_portfolio w [] (set_portfolio_holdings (values df) s) =
          (Return tt, s1) ->
        load_portfolio w file_path s =
          (Return tt,
           set_shown (shown s1 ++
             [showinfo "Load Portfolio" (LoadedFrom file_path)]) s1))
  /\ (forall e s1,
        update_portfolio w [] (set_portfolio_holdings (values df) s) =
          (Raise e, s1) ->
        load_portfolio w file_path s =
          (Return tt,
           set_shown (shown s1 ++
             [showerror "Load Portfolio" (ErrorLoading e)]) s1)).
Proof.
  intros Hpath Hfile Hread Hcols.
  rewrite (load_portfolio_with_columns w file_path s content df
             Hpath Hfile Hread Hcols).
  pose proof (keeps_update_portfolio_nil w
                (set_portfolio_holdings (values df) s)) as Hkeep.
  split; [| split].
  - destruct (update_portfolio w [] (set_portfolio_holdings (values df) s))
      as [[[] | e] s1]; cbn in *; exact Hkeep.
  - intros s1 ->. reflexivity.
  - intros e s1 ->. reflexivity.
Qed.

Lemma load_portfolio_replaces_witness :
  portfolio_holdings
    (snd (load_portfolio (with_pandas zzzz_down) "portfolio.csv"
            (set_disk old_export two_positions))) = [imported_row].
Proof.
  apply (proj1 (load_portfolio_replaces (with_pandas zzzz_down) "portfolio.csv"
                  (set_disk old_export two_positions) portfolio_text
                  portfolio_frame ltac:(discriminate) eq_refl eq_refl
                  (fun col H => H))).
Defined.

Lemma disk_update_currency w d :
  maintains (fun s => disk s = d) (update_currency w).
Proof. unfold update_currency. carry ltac:(fail). Qed.

Lemma disk_update_portfolio w d text_values :
  maintains (fun s => disk s = d) (update_portfolio w text_values).
Proof.
  apply carried_update_portfolio; try (intros; assumption).
  - intros x s H. exact H.
  - intros amount. apply maintains_convert_currency, disk_update_currency.
Qed.

(** X11.  [load_portfolio] never raises and never writes a file.  With
    the dialog dismissed it does nothing; for a path without a file, or a
    file that pandas cannot read, it shows the error box and changes
    nothing else. *)
Theorem load_portfolio_contained w file_path s :
  fst (load_portfolio w file_path s) = Return tt
  /\ disk (snd (load_portfolio w file_path s)) = disk s
  /\ (file_path = ""%string -> load_portfolio w file_path s = (Return tt, s))
  /\ (file_path <> ""%string -> disk s file_path = None ->
      load_portfolio w file_path s =
        (Return tt,
         set_shown (shown s ++
           [showerror "Load Portfolio" (ErrorLoading FileNotFoundError)]) s))
  /\ (file_path <> ""%string ->
      forall content e,
        disk s file_path = Some content ->
        read_csv w content = Raise e ->
        load_portfolio w file_path s =
          (Return tt,
           set_shown (shown s ++
             [showerror "Load Portfolio" (ErrorLoading e)]) s)).
Proof.
  split; [| split; [| split; [| split]]].
  - unfold load_portfolio. destruct (String.eqb file_path ""); [reflexivity |].
    unfold try_except.
    match goal with |- context [match ?c s with _ => _ end] =>
      destruct (c s) as [[[] | e] s1] end; reflexivity.
  - assert (H : maintains (fun s0 => disk s0 = disk s)
                  (load_portfolio w file_path)).
    { unfold load_portfolio, read_file.
      carry ltac:(apply disk_update_portfolio). }
    exact (H s eq_refl).
  - intros ->. reflexivity.
  - intros Hpath Hfile. unfold load_portfolio.
    rewrite (eqb_empty_false _ Hpath).
    unfold try_except, bind at 1. unfold read_file, bind at 1, gets at 1.
    rewrite Hfile. reflexivity.
  - intros Hpath content e Hfile Hread. unfold load_portfolio.
    rewrite (eqb_empty_false _ Hpath).
    unfold try_except, bind at 1. unfold read_file, bind at 1, gets at 1.
    rewrite Hfile. unfold lift. rewrite Hread. reflexivity.
Qed.

Lemma load_portfolio_contained_witness :
  load_portfolio desktop "missing.csv" fresh =
    (Return tt,
     set_shown (shown fresh ++
       [showerror "Load Portfolio" (ErrorLoading FileNotFoundError)]) fresh).
Proof.
  apply (proj1 (proj2 (proj2 (proj2 (load_portfolio_contained desktop
                                       "missing.csv" fresh))))).
  - discriminate.
  - reflexivity.
Defined.

(** X12.  [save_portfolio] leaves the holdings and every file but the
    chosen one as they are.  With an empty store, or the dialog dismissed,
    it writes nothing; when pandas refuses to build the table of the rows
    the exception leaves [save_portfolio] uncaught, before anything is
    written; otherwise the chosen file holds the text of the table. *)
Theorem save_portfolio_effect w file_path s :
  portfolio_holdings (snd (save_portfolio w file_path s)) = portfolio_holdings s
  /\ (forall path, path <> file_path ->
        disk (snd (save_portfolio w file_path s)) path = disk s path)
  /\ (portfolio_holdings s = [] \/ file_path = ""%string ->
      disk (snd (save_portfolio w file_path s)) = disk s)
  /\ (portfolio_holdings s <> [] -> file_path <> ""%string ->
      (forall e,
         DataFrame w (portfolio_holdings s) required_columns = Raise e ->
         save_portfolio w file_path s = (Raise e, s))
      /\ (forall df,
            DataFrame w (portfolio_holdings s) required_columns = Return df ->
            fst (save_portfolio w file_path s) = Return tt /\
            disk (snd (save_portfolio w file_path s)) file_path =
              Some (to_csv w df))).
Proof.
  unfold save_portfolio, bind, gets, lift, modify, messagebox. cbn.
  destruct (portfolio_holdings s) as [| h hs] eqn:Hh.
  - cbn. rewrite Hh. repeat split; try reflexivity; intros; contradiction.
  - destruct (String.eqb_spec file_path "") as [-> | Hpath].
    + cbn. rewrite Hh. repeat split; try reflexivity; intros; contradiction.
    + destruct (DataFrame w (h :: hs) required_columns) as [df | e]; cbn;
        rewrite ?Hh.
      * split; [reflexivity |]. split.
        { intros path Hne. unfold write_file.
          destruct (String.eqb_spec path file_path); [contradiction | reflexivity]. }
        split; [intros [H | H]; [discriminate | contradiction] |].
        intros _ _. split; [intros e H; discriminate |].
        intros df' H. injection H as <-. split; [reflexivity |].
        unfold write_file. rewrite String.eqb_refl. reflexivity.
      * split; [reflexivity |]. split; [reflexivity |].
        split; [reflexivity |].
        intros _ _. split; [| intros df H; discriminate].
        intros e' H. injection H as <-. reflexivity.
Qed.

Lemma save_portfolio_effect_witness :
  disk (snd (save_portfolio desktop "copy.csv" imported)) "portfolio.csv" =
    disk imported "portfolio.csv".
Proof.
  apply (proj1 (proj2 (save_portfolio_effect desktop "copy.csv" imported))).
  discriminate.
Defined.

(** ** The window of the chart *)

(** X13.  A timeframe that is not one of the eight names is charted as
    ["1mo"]: the chart is the one of the last thirty days. *)
Theorem unknown_timeframe_is_one_month w timeframe s :
  delta_map timeframe = None ->
  start_date w timeframe = (now w - days 30)%Z
  /\ get_portfolio_data_for_graph w timeframe s =
       get_portfolio_data_for_graph w "1mo" s.
Proof.
  intros H.
  assert (Hstart : start_date w timeframe = start_date w "1mo").
  { unfold start_date. rewrite H. reflexivity. }
  split.
  - rewrite Hstart. reflexivity.
  - unfold get_portfolio_data_for_graph, series_of_tasks.
    rewrite Hstart. reflexivity.
Qed.

Lemma unknown_timeframe_is_one_month_witness :
  get_portfolio_data_for_graph online "10y" holding_aapl =
    get_portfolio_data_for_graph online "1mo" holding_aapl.
Proof.
  apply (proj2 (unknown_timeframe_is_one_month online "10y" holding_aapl
                  eq_refl)).
Defined.

(** ** The downloads of the chart *)

Lemma fetch_all_app w end_date start t1 :
  forall t2,
  fetch_all w end_date start (t1 ++ t2) =
    fetch_all w end_date start t1 ++ fetch_all w end_date start t2.
Proof.
  induction t1 as [| [[[idx sym] units] dt] t1 IH]; intros t2;
    cbn [fetch_all app].
  - reflexivity.
  - destruct (fetch w end_date idx sym units (Z.max start dt)) as [df |];
      [| apply IH].
    destruct (points df); [apply IH |]. cbn [app]. rewrite IH. reflexivity.
Qed.

Lemma fetch_all_one w end_date start idx sym units dt :
  fetch_all w end_date start [(idx, sym, units, dt)] =
    match yf_download w sym (Z.max start dt) (end_date + days 1)%Z with
    | Return (Some (c :: closes)) => [scaled sym idx units (c :: closes)]
    | _ => []
    end.
Proof.
  cbn [fetch_all]. unfold fetch.
  destruct (yf_download w sym (Z.max start dt) (end_date + days 1)%Z)
    as [[[| c closes] |] | e]; reflexivity.
Qed.

(** X14.  The series of the chart are fetched task by task.  A task whose
    download raises, has neither price column or is empty adds nothing,
    and the tasks around it are fetched as they would be without it; a
    task whose download has prices adds one series, named after its symbol
    and index, with each closing price multiplied by the units, over the
    window that starts at the later of the chart's start and the purchase
    date. *)
Theorem fetch_all_task_by_task w end_date start before idx sym units dt after :
  fetch_all w end_date start (before ++ (idx, sym, units, dt) :: after) =
    fetch_all w end_date start before ++
    match yf_download w sym (Z.max start dt) (end_date + days 1)%Z with
    | Return (Some (c :: closes)) => [scaled sym idx units (c :: closes)]
    | _ => []
    end ++
    fetch_all w end_date start after.
Proof.
  rewrite fetch_all_app.
  change ((idx, sym, units, dt) :: after)
    with ([(idx, sym, units, dt)] ++ after).
  rewrite fetch_all_app, fetch_all_one. reflexivity.
Qed.

(** ** The order of the tasks *)

Lemma tasks_loop_sorted w end_date holdings :
  forall idx tasks,
  exists added,
    tasks_loop w end_date idx holdings tasks = tasks ++ added /\
    Forall (fun t => (idx <= task_index t)%nat) added /\
    StronglySorted lt (map task_index added).
Proof.
  induction holdings as [| h holdings IH]; intros idx tasks;
    cbn [tasks_loop].
  - exists []. rewrite app_nil_r. repeat constructor.
  - assert (Hskip : exists added,
      tasks_loop w end_date (S idx) holdings tasks = tasks ++ added /\
      Forall (fun t => (idx <= task_index t)%nat) added /\
      StronglySorted lt (map task_index added)).
    { destruct (IH (S idx) tasks) as (added & Hrun & Hge & Hsorted).
      exists added. repeat split; try assumption.
      eapply Forall_impl; [| exact Hge]. cbn. intros t Ht. lia. }
    destruct (task_of w end_date idx h) as [[t |] | e] eqn:Htask;
      [| exact Hskip | exact Hskip].
    destruct (IH (S idx) (tasks ++ [t])) as (added & Hrun & Hge & Hsorted).
    destruct (task_of_Some w end_date idx h t Htask)
      as (c0 & c3 & c4 & units & d & _ & _ & _ & _ & _ & _ & Ht).
    exists (t :: added). rewrite Hrun, <- app_assoc. split; [reflexivity |].
    assert (Hidx : task_index t = idx) by (subst t; reflexivity).
    split.
    + constructor; [lia |].
      eapply Forall_impl; [| exact Hge]. cbn. intros t' Ht'. lia.
    + cbn [map]. constructor; [exact Hsorted |].
      rewrite Hidx. apply Forall_map.
      eapply Forall_impl; [| exact Hge]. cbn. intros t' Ht'. lia.
Qed.

(** X15.  The tasks of the chart follow the holdings: their indices
    increase strictly along the list, so no holding has two tasks and no
    two series get the same name. *)
Theorem tasks_in_holding_order w end_date holdings :
  StronglySorted lt (map task_index (tasks_loop w end_date 0 holdings []))
  /\ NoDup (map task_index (tasks_loop w end_date 0 holdings [])).
Proof.
  destruct (tasks_loop_sorted w end_date holdings 0 [])
    as (added & Hrun & _ & Hsorted).
  rewrite Hrun. cbn [app]. split; [exact Hsorted |].
  clear Hrun. induction Hsorted as [| i l _ IH Hlt]; constructor.
  - intros Hin. rewrite Forall_forall in Hlt. specialize (Hlt i Hin). lia.
  - exact IH.
Qed.

(** ** Positions and holdings *)

Lemma group_loop_keys holdings :
  forall grouped grouped',
  group_loop holdings grouped = Return grouped' ->
  forall k, In k (map fst grouped') ->
  In k (map fst grouped) \/
  exists h, In h holdings /\ getitem h 0 = Return k.
Proof.
  induction holdings as [| h holdings IH]; intros grouped grouped' Hrun k Hin;
    cbn [group_loop] in Hrun.
  - injection Hrun as <-. left. exact Hin.
  - destruct (getitem h 0) as [symbol |] eqn:Hsym; cbn [obind] in Hrun;
      [| discriminate].
    assert (Hlater : forall h', In h' holdings /\ getitem h' 0 = Return k ->
              exists h0, In h0 (h :: holdings) /\ getitem h0 0 = Return k).
    { intros h' [Hh' Hk]. exists h'. split; [right; exact Hh' | exact Hk]. }
    destruct (dict_get symbol grouped) as [lots |] eqn:Hget.
    + destruct (IH _ _ Hrun k Hin) as [Hold | [h' Hh']].
      * left. rewrite (dict_set_keys _ _ _ _ Hget) in Hold. exact Hold.
      * right. apply (Hlater h'). exact Hh'.
    + destruct (IH _ _ Hrun k Hin) as [Hold | [h' Hh']].
      * rewrite map_app in Hold. apply in_app_or in Hold.
        destruct Hold as [Hold | [<- | []]]; [left; exact Hold |].
        right. exists h. split; [left; reflexivity | exact Hsym].
      * right. apply (Hlater h'). exact Hh'.
Qed.

Lemma symbol_body_position w symbol lots edited s edited' s' :
  symbol_body w symbol lots edited s = (Return edited', s') ->
  exists p, edited' = dict_set symbol p edited /\ pos_symbol p = symbol.
Proof.
  intros H. unfold symbol_body, bind, lift, gets, modify, ret in H.
  destruct (finnhub_search w symbol) as [found |]; [| discriminate H].
  destruct (getitem lots 0) as [first_holding |]; [| discriminate H].
  run_step H. destruct o as [category |]; [| discriminate H].
  run_step H. destruct o as [name |]; [| discriminate H].
  run_step H. destruct o as [current_price |]; [| discriminate H].
  destruct (lots_loop w current_price (initial_locals w) lots)
    as [acc |]; [| discriminate H].
  rewrite !percent_or_zero_eq in H. cbn in H.
  run_step H. destruct o as [value_text |]; [| discriminate H].
  injection H as <- <-. eexists. split; reflexivity.
Qed.

Lemma dict_set_values {V} (Q : V -> Prop) k v (d : list (cell * V)) :
  Q v -> Forall (fun kv => Q (snd kv)) d ->
  Forall (fun kv => Q (snd kv)) (dict_set k v d).
Proof.
  intros Hv. induction 1 as [| [k' v'] d Hk Hd IH]; cbn.
  - repeat constructor. exact Hv.
  - destruct (cell_eqb k' k); constructor;
      first [exact Hv | exact Hk | exact Hd | exact IH].
Qed.

Lemma symbols_loop_positions w (known : list cell) grouped :
  forall edited s edited' s',
  incl (map fst grouped) known ->
  Forall (fun kv => In (pos_symbol (snd kv)) known) edited ->
  symbols_loop w grouped edited s = (Return edited', s') ->
  Forall (fun kv => In (pos_symbol (snd kv)) known) edited'.
Proof.
  induction grouped as [| [symbol lots] rest IH];
    intros edited s edited' s' Hkeys Hedited Hrun; cbn [symbols_loop] in Hrun.
  - injection Hrun as <- _. exact Hedited.
  - apply bind_returns in Hrun. destruct Hrun as (edited1 & s1 & Hbody & Hrest).
    apply (IH edited1 s1 edited' s'); [| | exact Hrest].
    + intros k Hk. apply Hkeys. right. exact Hk.
    + unfold try_except in Hbody.
      destruct (symbol_body w symbol lots edited s) as [[e1 | ex] s0] eqn:Hb.
      * injection Hbody as <- _.
        destruct (symbol_body_position _ _ _ _ _ _ _ Hb) as (p & -> & Hp).
        apply (dict_set_values (fun q => In (pos_symbol q) known));
          [| exact Hedited].
        rewrite Hp. apply Hkeys. left. reflexivity.
      * cbn in Hbody. injection Hbody as <- _. exact Hedited.
Qed.

Lemma maintains_for_each_In {A} P (l : list A) body :
  (forall x, In x l -> maintains P (body x)) -> maintains P (for_each l body).
Proof.
  induction l as [| x l IH]; intros H; cbn [for_each].
  - apply maintains_ret.
  - apply maintains_bind; [apply H; left; reflexivity |].
    intros _. apply IH. intros y Hy. apply H. right. exact Hy.
Qed.

Lemma empty_positions_update_currency w H :
  maintains (fun s => portfolio_holdings s = H /\ total_portfolio_holdings s = [])
    (update_currency w).
Proof. unfold update_currency. carry ltac:(fail). Qed.
(** The two halves make the pass. *)
Lemma update_portfolio_halves w s :
  update_portfolio w [] s = bind (aggregate_symbols w) (finish_pass w) s.
Proof.
  unfold update_portfolio, aggregate_symbols, finish_pass.
  cbn [List.length Nat.ltb Nat.leb].
  cbv beta iota delta [bind modify gets lift ret group_portfolio_holdings].
  destruct (group_loop _ []) as [grouped | e]; [| reflexivity].
  destruct (symbols_loop w grouped [] _) as [[edited | e] s3]; reflexivity.
Qed.

Lemma aggregate_symbols_result w s r s' :
  aggregate_symbols w s = (r, s') ->
  total_portfolio_holdings s' = [] /\
  forall edited, r = Return edited ->
    Forall (fun kv => held (portfolio_holdings s) (snd kv)) edited.
Proof.
  unfold aggregate_symbols.
  cbv beta iota delta [bind modify gets lift ret group_portfolio_holdings].
  destruct (group_loop _ []) as [grouped | e] eqn:Hg.
  - cbn [portfolio_holdings set_total_portfolio_holdings] in Hg.
    match goal with |- symbols_loop w grouped [] ?s0 = _ -> _ =>
      set (s2 := s0) end.
    intros Hrun.
    set (P := fun st : invest_mate => total_portfolio_holdings st = []).
    assert (Hbody : forall symbol lots edited,
              maintains P (symbol_body w symbol lots edited)).
    { intros symbol lots edited.
      apply carried_symbol_body;
        first [ intros x st Hs; exact Hs
              | intros amount; apply maintains_convert_currency;
                unfold update_currency; carry ltac:(fail) ]. }
    pose proof (maintains_symbols_loop w P Hbody (fun d st Hs => Hs)
                  grouped [] s2 eq_refl) as Hkept.
    rewrite Hrun in Hkept. split; [exact Hkept |].
    intros edited ->.
    pose proof (symbols_loop_positions w (map fst grouped) grouped [] s2
                  edited s' (fun k Hk => Hk) (Forall_nil _) Hrun) as Hedited.
    eapply Forall_impl; [| exact Hedited].
    intros [k p] Hp. cbn in *.
    destruct (group_loop_keys _ _ _ Hg _ Hp) as [[] | Hh]. exact Hh.
  - intros H. injection H as <- <-. split; [reflexivity |].
    intros edited H. discriminate H.
Qed.

Lemma finish_pass_positions w (Q : position -> Prop) edited :
  Forall (fun kv => Q (snd kv)) edited ->
  maintains (fun s => Forall Q (total_portfolio_holdings s))
    (finish_pass w edited).
Proof.
  intros Hedited. unfold finish_pass, calculate_daily_change, daily_change_step.
  carry ltac:(first
    [ apply maintains_for_each_In; intros x Hx;
      apply maintains_modify; intros s4 H4; cbn;
      apply Forall_app; split; [exact H4 |];
      constructor; [| constructor];
      rewrite Forall_forall in Hedited; exact (Hedited _ Hx) ]).
Qed.

(** X16.  After an aggregation pass, however it ends, every position is
    the position of a held symbol: its symbol is the first cell of one of
    the holdings.  No position is left over from an earlier pass or made
    for a symbol that is not held. *)
Theorem positions_are_held w text_values s :
  Forall (held (portfolio_holdings (snd (update_portfolio w text_values s))))
    (total_portfolio_holdings (snd (update_portfolio w text_values s))).
Proof.
  assert (Hnil : forall s0,
    Forall (held (portfolio_holdings (snd (update_portfolio w [] s0))))
      (total_portfolio_holdings (snd (update_portfolio w [] s0)))).
  { intros s0. rewrite (keeps_update_portfolio_nil w s0).
    rewrite update_portfolio_halves. unfold bind.
    destruct (aggregate_symbols w s0) as [[edited | e] s3] eqn:Hagg;
      destruct (aggregate_symbols_result w s0 _ s3 Hagg) as [Hnone Hedited].
    - apply (finish_pass_positions w (held (portfolio_holdings s0)) edited
               (Hedited edited eq_refl) s3).
      rewrite Hnone. constructor.
    - cbn. rewrite Hnone. constructor. }
  destruct text_values as [| v vs]; [apply Hnil |].
  rewrite (update_portfolio_after_append w (v :: vs) s) by discriminate.
  apply Hnil.
Qed.

(** ** What a pass leaves alone *)

Lemma disk_currency_update_currency w d c :
  maintains (fun s => disk s = d /\ currency s = c) (update_currency w).
Proof. unfold update_currency. carry ltac:(fail). Qed.

Lemma disk_currency_update_portfolio w d c text_values :
  maintains (fun s => disk s = d /\ currency s = c)
    (update_portfolio w text_values).
Proof.
  apply carried_update_portfolio;
    first [ intros x st Hs; exact Hs
          | intros amount;
            apply maintains_convert_currency, disk_currency_update_currency ].
Qed.
Lemma usd_convert_currency w r u amount :
  maintains (fun s => currency s = "USD"%string /\ currency_rate s = r /\
                      currency_rate_last_updated s = u)
    (convert_currency w amount).
Proof.
  intros s (Hc & Hr & Hu). unfold convert_currency, bind, gets, ret. cbn.
  rewrite Hc. cbn. auto.
Qed.

Lemma usd_update_portfolio w r u text_values :
  maintains (fun s => currency s = "USD"%string /\ currency_rate s = r /\
                      currency_rate_last_updated s = u)
    (update_portfolio w text_values).
Proof.
  apply carried_update_portfolio;
    first [ intros x st Hs; exact Hs
          | intros amount; apply usd_convert_currency ].
Qed.

(** X17.  An aggregation pass, with or without new values, and the form
    never write a file and never change the selected currency.  While the
    currency is USD they do not refresh the exchange rate either: the
    cached rate and [currency_rate_last_updated] stay as they were. *)
Theorem pass_leaves_files_and_currency w isalnum text_values s :
  disk (snd (update_portfolio w text_values s)) = disk s
  /\ currency (snd (update_portfolio w text_values s)) = currency s
  /\ disk (snd (add_investment w isalnum text_values s)) = disk s
  /\ currency (snd (add_investment w isalnum text_values s)) = currency s
  /\ (currency s = "USD"%string ->
      currency_rate (snd (update_portfolio w text_values s)) = currency_rate s
      /\ currency_rate_last_updated (snd (update_portfolio w text_values s)) =
           currency_rate_last_updated s
      /\ currency_rate (snd (add_investment w isalnum text_values s)) =
           currency_rate s
      /\ currency_rate_last_updated
           (snd (add_investment w isalnum text_values s)) =
           currency_rate_last_updated s).
Proof.
  pose proof (disk_currency_update_portfolio w (disk s) (currency s)
                text_values s (conj eq_refl eq_refl)) as [Hd Hc].
  assert (Hadd : maintains (fun s0 => disk s0 = disk s /\ currency s0 = currency s)
                   (add_investment w isalnum text_values)).
  { unfold add_investment, check_properly_formatted.
    carry ltac:(apply disk_currency_update_portfolio). }
  destruct (Hadd s (conj eq_refl eq_refl)) as [Hd' Hc'].
  split; [exact Hd |]. split; [exact Hc |]. split; [exact Hd' |].
  split; [exact Hc' |].
  intros Husd.
  destruct (usd_update_portfolio w (currency_rate s)
              (currency_rate_last_updated s) text_values s
              (conj Husd (conj eq_refl eq_refl))) as (_ & Hr & Hu).
  split; [exact Hr |]. split; [exact Hu |].
  assert (Hform : maintains
            (fun s0 => currency s0 = "USD"%string /\
                       currency_rate s0 = currency_rate s /\
                       currency_rate_last_updated s0 = currency_rate_last_updated s)
            (add_investment w isalnum text_values)).
  { unfold add_investment, check_properly_formatted.
    carry ltac:(apply usd_update_portfolio). }
  exact (proj2 (Hform s (conj Husd (conj eq_refl eq_refl)))).
Qed.

Lemma pass_leaves_files_and_currency_witness :
  currency_rate (snd (update_portfolio search_down form_aapl_120 holding_aapl)) =
    currency_rate holding_aapl
  /\ currency_rate_last_updated
       (snd (update_portfolio search_down form_aapl_120 holding_aapl)) =
       currency_rate_last_updated holding_aapl
  /\ currency_rate
       (snd (add_investment search_down ascii_alnum form_aapl_120 holding_aapl)) =
       currency_rate holding_aapl
  /\ currency_rate_last_updated
       (snd (add_investment search_down ascii_alnum form_aapl_120 holding_aapl)) =
       currency_rate_last_updated holding_aapl.
Proof.
  apply (proj2 (proj2 (proj2 (proj2
           (pass_leaves_files_and_currency search_down ascii_alnum
              form_aapl_120 holding_aapl)))) eq_refl).
Defined.

(** ** A change of currency that fetches its rate *)

Lemma fetched_update_currency w choice r t :
  fx_rates w choice = Return r ->
  maintains (fun s => currency s = choice /\ currency_rate s = r /\
                      last_updated_currency_date s = t)
    (update_currency w).
Proof.
  intros Hfx s (Hc & Hr & Ht).
  rewrite (update_currency_success w s r) by (rewrite Hc; exact Hfx).
  cbn. auto.
Qed.

(** X18.  When the FX provider answers for the currency picked in the
    selector, [on_currency_selected] ends with that currency and the
    fetched rate, and for a currency other than USD every conversion that
    the test of line 107 finds within 600 seconds of
    [last_updated_currency_date] returns the amount times that rate. *)
Theorem fetched_currency_switch w choice s r :
  fx_rates w choice = Return r ->
  currency (snd (on_currency_selected w choice s)) = choice
  /\ currency_rate (snd (on_currency_selected w choice s)) = r
  /\ (choice <> "USD"%string ->
      forall w' amount,
        (timedelta_seconds (now w' - last_updated_currency_date s) <= 600)%Z ->
        convert_currency w' amount (snd (on_currency_selected w choice s)) =
          (Return (Some (amount * r)%float),
           snd (on_currency_selected w choice s))).
Proof.
  intros Hfx.
  assert (Hrun : on_currency_selected w choice s =
            update_portfolio w []
              (set_currency_rate_last_updated (Some (now w))
                 (set_currency_rate r (set_currency choice s)))).
  { unfold on_currency_selected, bind, modify.
    rewrite (update_currency_success w (set_currency choice s) r Hfx).
    reflexivity. }
  rewrite Hrun.
  match goal with |- context [update_portfolio w [] ?s0] => set (s1 := s0) end.
  assert (Hpass : maintains
            (fun s0 => currency s0 = choice /\ currency_rate s0 = r /\
                       last_updated_currency_date s0 =
                         last_updated_currency_date s)
            (update_portfolio w [])).
  { apply carried_update_portfolio;
      first [ intros x st Hs; exact Hs
            | intros amount;
              apply maintains_convert_currency,
                    (fetched_update_currency w choice r _ Hfx) ]. }
  destruct (Hpass s1) as (Hc & Hr & Ht); [repeat split |].
  destruct (update_portfolio w [] s1) as [o s2]. cbn [snd] in *.
  split; [exact Hc |]. split; [exact Hr |].
  intros Hne w' amount Hfresh.
  unfold convert_currency, bind, gets, ret. cbn. rewrite Hc.
  destruct (String.eqb_spec choice "USD") as [E | _]; [contradiction |].
  cbn. rewrite Ht.
  destruct (Z.ltb_spec 600 (timedelta_seconds (now w' - last_updated_currency_date s)))
    as [Hlt | _]; [lia |].
  cbn. rewrite Hr. reflexivity.
Qed.

Lemma fetched_currency_switch_witness :
  convert_currency online 100 (snd (on_currency_selected online "EUR" fresh)) =
    (Return (Some (100 * 0.5)%float),
     snd (on_currency_selected online "EUR" fresh)).
Proof.
  apply (proj2 (proj2 (fetched_currency_switch online "EUR" fresh 0.5 eq_refl))).
  - discriminate.
  - vm_compute. discriminate.
Defined.

(** ** The representative lot *)

Lemma lot_step_date w current_price acc r acc' :
  lot_step w current_price acc r = Return acc' ->
  i acc' <> 0%Z /\
  (i acc <> 0%Z -> purchase_date acc' = purchase_date acc) /\
  (i acc = 0%Z -> getitem r 3 = Return (purchase_date acc')).
Proof.
  unfold lot_step.
  destruct (getitem r 0) as [c0 |]; cbn; [| discriminate].
  destruct (py_float w c0) as [p |]; cbn; [| discriminate].
  destruct (getitem r 1) as [c1 |]; cbn; [| discriminate].
  destruct (py_float w c1) as [f |]; cbn; [| discriminate].
  destruct (getitem r 2) as [c2 |]; cbn; [| discriminate].
  destruct (py_float w c2) as [u |]; cbn; [| discriminate].
  destruct (Z.eqb_spec (i acc) 0) as [Hi | Hi].
  - destruct (getitem r 3) as [c3 |]; cbn; [| discriminate].
    intros H. injection H as <-. cbn. rewrite Hi.
    split; [lia |]. split; [intros H; contradiction | reflexivity].
  - intros H. injection H as <-. cbn.
    split; [exact Hi |]. split; [reflexivity | intros H; contradiction].
Qed.

Lemma lots_loop_date w current_price lots :
  forall acc acc',
  i acc <> 0%Z ->
  lots_loop w current_price acc lots = Return acc' ->
  purchase_date acc' = purchase_date acc.
Proof.
  induction lots as [| r lots IH]; intros acc acc' Hi H; cbn [lots_loop] in H.
  - injection H as <-. reflexivity.
  - destruct (lot_step w current_price acc r) as [acc1 |] eqn:Hstep;
      cbn [obind] in H; [| discriminate].
    destruct (lot_step_date w current_price acc r acc1 Hstep) as (Hi1 & Hkeep & _).
    rewrite (IH acc1 acc' Hi1 H). exact (Hkeep Hi).
Qed.

(** X19.  The position of a symbol takes its purchase date and its
    category from the first lot that was added for the symbol: the date is
    the fourth cell after the symbol, the category the fifth, or General
    when the row has none.  Today's date, with which [purchase_date]
    starts, never reaches a position. *)
Theorem position_represents_first_lot w symbol lots edited s edited' s' :
  symbol_body w symbol lots edited s = (Return edited', s') ->
  exists p first rest,
    lots = first :: rest /\
    edited' = dict_set symbol p edited /\
    getitem first 3 = Return (pos_purchase_date p) /\
    pos_category p = nth 4 first (CStr "General").
Proof.
  intros H. unfold symbol_body, bind, lift, gets, modify, ret in H.
  destruct (finnhub_search w symbol) as [found |]; [| discriminate H].
  destruct (getitem lots 0) as [first |] eqn:Hfirst; [| discriminate H].
  assert (Hcat : forall st : invest_mate,
    (if (4 <? List.length first)%nat
     then fun s0 : invest_mate => (getitem first 4, s0)
     else fun s0 : invest_mate => (Return (CStr "General"), s0)) st =
    (Return (nth 4 first (CStr "General")), st)).
  { intros st. destruct (Nat.ltb_spec 4 (List.length first)) as [Hlt | Hge].
    - unfold getitem.
      destruct (nth_error first 4) as [c |] eqn:E.
      + rewrite (nth_error_nth _ _ _ E). reflexivity.
      + apply nth_error_None in E. lia.
    - rewrite nth_overflow by lia. reflexivity. }
  rewrite Hcat in H.
  run_step H. destruct o as [name |]; [| discriminate H].
  run_step H. destruct o as [current_price |]; [| discriminate H].
  destruct (lots_loop w current_price (initial_locals w) lots)
    as [acc |] eqn:Hloop; [| discriminate H].
  rewrite !percent_or_zero_eq in H. cbn in H.
  run_step H. destruct o as [value_text |]; [| discriminate H].
  injection H as <- <-.
  destruct lots as [| first' rest]; [discriminate Hfirst |].
  cbn in Hfirst. injection Hfirst as ->.
  eexists. exists first, rest. split; [reflexivity |].
  split; [reflexivity |]. cbn. split; [| reflexivity].
  cbn [lots_loop] in Hloop.
  destruct (lot_step w current_price (initial_locals w) first) as [acc1 |]
    eqn:Hstep; cbn [obind] in Hloop; [| discriminate].
  destruct (lot_step_date w current_price _ first acc1 Hstep)
    as (Hi1 & _ & Hdate).
  rewrite (lots_loop_date w current_price rest acc1 acc Hi1 Hloop).
  apply Hdate. reflexivity.
Qed.

Lemma position_represents_first_lot_witness :
  exists p first rest,
    [lot_100; lot_120] = first :: rest /\
    fst (symbol_body online AAPL [lot_100; lot_120] [] fresh) =
      Return (dict_set AAPL p []) /\
    getitem first 3 = Return (pos_purchase_date p) /\
    pos_category p = nth 4 first (CStr "General").
Proof.
  destruct (position_represents_first_lot online AAPL [lot_100; lot_120] []
              fresh
              (match fst (symbol_body online AAPL [lot_100; lot_120] [] fresh)
               with Return x => x | Raise _ => [] end)
              (snd (symbol_body online AAPL [lot_100; lot_120] [] fresh))
              ltac:(vm_compute; reflexivity))
    as (p & first & rest & Hl & He & Hd & Hc).
  exists p, first, rest. split; [exact Hl |].
  split; [| split; assumption].
  rewrite <- He. vm_compute. reflexivity.
Defined.

(** ** The total value in USD *)

Lemma dict_set_new {V} k v (d : list (cell * V)) :
  dict_get k d = None -> dict_set k v d = d ++ [(k, v)].
Proof.
  induction d as [| [k' v'] d IH]; cbn.
  - reflexivity.
  - destruct (cell_eqb k' k); [discriminate |].
    intros H. rewrite (IH H). reflexivity.
Qed.

Lemma value_get_current_price w symbol V :
  maintains (fun s => total_portfolio_value s = V /\ currency s = "USD"%string)
    (get_current_price w symbol).
Proof. unfold get_current_price. carry ltac:(fail). Qed.

Lemma format_converted_usd w v s :
  currency s = "USD"%string ->
  format_converted w v s = (Return (value_text w "USD" v), s).
Proof.
  intros H. unfold format_converted, convert_currency, bind, gets, ret. cbn.
  rewrite H. reflexivity.
Qed.

Lemma symbol_body_usd w symbol lots edited s :
  currency s = "USD"%string ->
  currency (snd (symbol_body w symbol lots edited s)) = "USD"%string /\
  match fst (symbol_body w symbol lots edited s) with
  | Return edited' =>
      exists p v,
        edited' = dict_set symbol p edited /\
        pos_value p = value_text w "USD" v /\
        total_portfolio_value (snd (symbol_body w symbol lots edited s)) =
          (total_portfolio_value s + v)%float
  | Raise _ =>
      total_portfolio_value (snd (symbol_body w symbol lots edited s)) =
        total_portfolio_value s
  end.
Proof.
  intros Husd. unfold symbol_body.
  cbv beta iota delta [bind lift gets modify ret].
  destruct (finnhub_search w symbol) as [found |];
    [| split; [exact Husd | reflexivity]].
  destruct (getitem lots 0) as [first |];
    [| split; [exact Husd | reflexivity]].
  destruct (4 <? List.length first)%nat;
    [destruct (getitem first 4) as [category |] |];
    cbv beta iota; try solve [split; [exact Husd | reflexivity]].
  all: destruct (0 <? count found)%Z;
    [destruct (getitem (result found) 0) as [d |] |];
    cbv beta iota; try solve [split; [exact Husd | reflexivity]].
  all: pose proof (value_get_current_price w symbol (total_portfolio_value s) s
                     (conj eq_refl Husd)) as [Hv Hc];
    destruct (get_current_price w symbol s) as [[current_price | e] s1];
    cbn [snd] in Hv, Hc; cbv beta iota; [| split; [exact Hc | exact Hv]];
    destruct (lots_loop w current_price (initial_locals w) lots) as [acc |];
    cbv beta iota; [| split; [exact Hc | exact Hv]];
    rewrite !percent_or_zero_eq; cbv beta iota;
    rewrite format_converted_usd by exact Hc;
    cbn; split; [exact Hc |];
    eexists; eexists; split; [reflexivity |]; cbn;
    split; [reflexivity | rewrite Hv; reflexivity].
Qed.

Lemma total_snoc xs x : total (xs ++ [x]) = (total xs + x)%float.
Proof. unfold total. rewrite fold_left_app. reflexivity. Qed.

Lemma symbols_loop_usd w grouped :
  forall edited s edited' s',
  string_keys grouped -> NoDup (map fst grouped) ->
  (forall k, In k (map fst grouped) -> dict_get k edited = None) ->
  currency s = "USD"%string ->
  shows_amounts w (map snd edited) (total_portfolio_value s) ->
  symbols_loop w grouped edited s = (Return edited', s') ->
  shows_amounts w (map snd edited') (total_portfolio_value s').
Proof.
  induction grouped as [| [symbol lots] rest IH];
    intros edited s edited' s' Hkeys Hnodup Hfresh Husd Hsum Hrun;
    cbn [symbols_loop] in Hrun.
  - injection Hrun as <- <-. exact Hsum.
  - apply bind_returns in Hrun. destruct Hrun as (edited1 & s1 & Hbody & Hrest).
    inversion Hkeys as [| kv grouped' [b Hb] Hkeys' E]; subst.
    cbn in Hb. subst symbol.
    inversion Hnodup as [| k ks Hnotin Hnodup' E]; subst.
    destruct (symbol_body_usd w (CStr b) lots edited s Husd) as [Hc Hv].
    unfold try_except in Hbody.
    destruct (symbol_body w (CStr b) lots edited s) as [[e1 | ex] s0];
      cbn [fst snd] in Hc, Hv.
    + injection Hbody as <- <-. destruct Hv as (p & v & -> & Hp & Hv).
      pose proof (dict_set_new (CStr b) p edited
                    (Hfresh _ (or_introl eq_refl))) as Hset.
      rewrite Hset in Hrest.
      apply (IH _ _ _ _ Hkeys' Hnodup') in Hrest; [exact Hrest | | exact Hc |].
      * intros k Hk.
        assert (Hstr : exists a, k = CStr a).
        { rewrite Forall_forall in Hkeys'. apply in_map_iff in Hk.
          destruct Hk as (kv & <- & Hin). exact (Hkeys' kv Hin). }
        destruct Hstr as [a ->]. rewrite dict_get_app_str.
        rewrite (Hfresh _ (or_intror Hk)).
        destruct (String.eqb_spec b a) as [<- | _]; [contradiction | reflexivity].
      * destruct Hsum as (amounts & Htexts & Hsum).
        exists (amounts ++ [v]). rewrite !map_app. cbn [map snd].
        rewrite Htexts, Hp, total_snoc, Hv, Hsum. split; reflexivity.
    + cbn in Hbody. injection Hbody as <- <-.
      apply (IH _ _ _ _ Hkeys' Hnodup') in Hrest; [exact Hrest | | exact Hc |].
      * intros k Hk. apply Hfresh. right. exact Hk.
      * cbn [total_portfolio_value set_shown]. rewrite Hv. exact Hsum.
Qed.

Lemma for_each_append (edited : list (cell * position)) :
  forall s,
  exists s',
    for_each edited (fun edited_holding =>
      modify (fun s0 => set_total_portfolio_holdings
                (total_portfolio_holdings s0 ++ [snd edited_holding]) s0)) s
    = (Return tt, s') /\
    total_portfolio_holdings s' = total_portfolio_holdings s ++ map snd edited /\
    total_portfolio_value s' = total_portfolio_value s.
Proof.
  induction edited as [| kv edited IH]; intros s; cbn [for_each map].
  - exists s. rewrite app_nil_r. repeat split.
  - unfold bind, modify at 1.
    match goal with |- context [for_each edited _ ?s1] =>
      destruct (IH s1) as (s' & Hrun & Hpos & Hval) end.
    exists s'. rewrite Hrun. split; [reflexivity |].
    rewrite Hpos, Hval. cbn. rewrite <- app_assoc. split; reflexivity.
Qed.

Lemma finish_pass_appends w edited s :
  total_portfolio_holdings (snd (finish_pass w edited s)) =
    total_portfolio_holdings s ++ map snd edited /\
  total_portfolio_value (snd (finish_pass w edited s)) = total_portfolio_value s.
Proof.
  assert (Hrun : exists s2,
    finish_pass w edited s = calculate_daily_change w s2 /\
    total_portfolio_holdings s2 = total_portfolio_holdings s ++ map snd edited /\
    total_portfolio_value s2 = total_portfolio_value s).
  { unfold finish_pass. unfold bind at 1 2, gets at 1 2.
    set (n := total_profit_loss s).
    set (d := (total_portfolio_value s - n)%float).
    assert (Hstep : exists s1,
      (if ne0 d
       then bind (lift (truediv n d))
              (fun q => modify (set_total_profit_loss_percent (q * 100)%float))
       else ret tt) s = (Return tt, s1) /\
      total_portfolio_holdings s1 = total_portfolio_holdings s /\
      total_portfolio_value s1 = total_portfolio_value s).
    { unfold truediv, ne0. destruct (PrimFloat.eqb d 0); cbn.
      - exists s. repeat split.
      - eexists. repeat split. }
    destruct Hstep as (s1 & Hrun1 & Hpos1 & Hval1).
    unfold bind at 1. rewrite Hrun1.
    destruct (for_each_append edited s1) as (s2 & Hrun2 & Hpos2 & Hval2).
    unfold bind at 1. rewrite Hrun2.
    exists s2. split; [reflexivity |].
    rewrite Hpos2, Hval2, Hpos1, Hval1. split; reflexivity. }
  destruct Hrun as (s2 & -> & Hpos & Hval).
  assert (Hdaily : maintains
            (fun st => total_portfolio_holdings st = total_portfolio_holdings s2 /\
                       total_portfolio_value st = total_portfolio_value s2)
            (calculate_daily_change w)).
  { unfold calculate_daily_change, daily_change_step. carry ltac:(fail). }
  destruct (Hdaily s2 (conj eq_refl eq_refl)) as [Hpos3 Hval3].
  rewrite Hpos3, Hval3, Hpos, Hval. split; reflexivity.
Qed.

Lemma aggregate_symbols_usd w s :
  currency s = "USD"%string ->
  string_symbols (portfolio_holdings s) ->
  exists edited s',
    aggregate_symbols w s = (Return edited, s') /\
    total_portfolio_holdings s' = [] /\
    shows_amounts w (map snd edited) (total_portfolio_value s').
Proof.
  intros Husd Hstr.
  destruct (group_loop_merges _ Hstr [] (Forall_nil _) (NoDup_nil _))
    as (grouped & Hg & Hkeys & Hnodup & _).
  assert (Hrun : exists s2,
    aggregate_symbols w s = symbols_loop w grouped [] s2 /\
    currency s2 = "USD"%string /\ total_portfolio_value s2 = 0%float).
  { unfold aggregate_symbols.
    cbv beta iota delta [bind modify gets lift ret group_portfolio_holdings].
    cbn [portfolio_holdings set_total_portfolio_holdings]. rewrite Hg.
    eexists. split; [reflexivity |]. split; [exact Husd | reflexivity]. }
  destruct Hrun as (s2 & Heq & Hc & Hv).
  destruct (symbols_loop_returns w grouped [] s2) as (edited & s3 & Hloop).
  exists edited, s3. rewrite Heq, Hloop. split; [reflexivity |].
  split.
  - apply (aggregate_symbols_result w s (Return edited) s3).
    rewrite Heq. exact Hloop.
  - apply (symbols_loop_usd w grouped [] s2 edited s3 Hkeys Hnodup);
      [reflexivity | exact Hc | | exact Hloop].
    exists []. rewrite Hv. split; reflexivity.
Qed.

(** X20.  With USD selected and string symbols, the value texts of the
    positions that a pass leaves are, in their order, the sign of USD and
    the two decimals of amounts whose sum from 0 is the total value that the
    pass leaves: a symbol whose aggregation fails adds to neither, and this
    holds however the pass ends. *)
Theorem usd_total_is_sum_of_shown_amounts w text_values s :
  currency s = "USD"%string ->
  string_symbols (portfolio_holdings s) ->
  exists amounts,
    map pos_value
      (total_portfolio_holdings (snd (update_portfolio w text_values s))) =
      map (value_text w "USD") amounts /\
    total_portfolio_value (snd (update_portfolio w text_values s)) =
      total amounts.
Proof.
  assert (Hnil : forall s0,
    currency s0 = "USD"%string -> string_symbols (portfolio_holdings s0) ->
    shows_amounts w (total_portfolio_holdings (snd (update_portfolio w [] s0)))
      (total_portfolio_value (snd (update_portfolio w [] s0)))).
  { intros s0 Husd Hstr. rewrite update_portfolio_halves. unfold bind.
    destruct (aggregate_symbols_usd w s0 Husd Hstr)
      as (edited & s3 & -> & Hnone & Hsum).
    destruct (finish_pass_appends w edited s3) as [Hpos Hval].
    rewrite Hpos, Hval, Hnone. exact Hsum. }
  intros Husd Hstr.
  destruct text_values as [| v vs]; [apply Hnil; assumption |].
  rewrite (update_portfolio_after_append w (v :: vs) s) by discriminate.
  apply Hnil; [exact Husd |].
  cbn [portfolio_holdings set_portfolio_holdings].
  apply Forall_app. split; [exact Hstr |].
  constructor; [| constructor].
  unfold new_holding. cbn [map]. destruct (_ =? 5)%nat; eexists; eexists;
    reflexivity.
Qed.

Lemma usd_total_is_sum_of_shown_amounts_witness :
  exists amounts,
    map pos_value
      (total_portfolio_holdings
         (snd (update_portfolio zzzz_down form_aapl_120 three_rows))) =
      map (value_text zzzz_down "USD") amounts /\
    total_portfolio_value
      (snd (update_portfolio zzzz_down form_aapl_120 three_rows)) =
      total amounts.
Proof.
  apply (usd_total_is_sum_of_shown_amounts zzzz_down form_aapl_120 three_rows).
  - reflexivity.
  - repeat constructor; eexists; eexists; reflexivity.
Defined.
